(** * OTP authentication flow of the listings backend

    A shallow embedding of the two source units that implement the
    phone-based login,

    - [services/twoFactorService.js] (class [TwoFactorService]): the
      gateway client, with its phone formatters, the SMS-then-voice
      [sendOTP] and [verifyOTP];
    - the OTP router ([POST /send-otp] and [POST /verify-otp]) with its
      process-local [otpSessions] map;

    and of two request guards of the security middleware,
    [validateApiKey] and [ipWhitelist].

    Conventions of the model:

    - JavaScript values are [jsval]s (JSON scalars); truthiness, [||],
      [===] and template-literal conversion are written out.
    - The module-level [Map] is a [gmap] keyed by [jsval]; an object held
      in the map and mutated through a local variable is updated in the
      map at the point of the mutation.
    - A handler is a computation in a small state-and-exception monad; its
      state holds the session map, the two database collections, the log
      of URLs requested from the gateway and a counter for document ids.
    - Everything outside the process is read from a [world]: the API key,
      the gateway's answer to each URL, the clock, which database calls
      reject and what the token signers do.  One handler run reads one
      clock value, and runs to completion before the next one starts. *)

From Stdlib Require Import ZArith String Ascii List Bool Lia.
From stdpp Require Import base option list gmap strings pretty.

Local Open Scope Z_scope.

(* ===================================================================== *)
(** ** JavaScript values                                                   *)
(* ===================================================================== *)

Module Js.

(** The request-body fields and the gateway's [Status]/[Details] fields
    are JSON scalars.  Numbers are restricted to integers ([JNum n] is the
    Number of value [n]: every integer up to 2^53 in magnitude is one,
    and beyond that those a double holds), strings to code units below
    256 (one [ascii] per UTF-16 code unit), so [String.length] is
    JavaScript's [.length]. *)
Inductive jsval : Type :=
| JUndefined
| JNull
| JBool (b : bool)
| JNum (n : Z)
| JStr (s : string).

#[global] Instance jsval_eq_dec : EqDecision jsval.
Proof. solve_decision. Defined.

Definition jsval_to_sum (v : jsval) : unit + (unit + (bool + (Z + string))) :=
  match v with
  | JUndefined => inl tt
  | JNull => inr (inl tt)
  | JBool b => inr (inr (inl b))
  | JNum n => inr (inr (inr (inl n)))
  | JStr s => inr (inr (inr (inr s)))
  end.

Definition jsval_of_sum (x : unit + (unit + (bool + (Z + string)))) : jsval :=
  match x with
  | inl _ => JUndefined
  | inr (inl _) => JNull
  | inr (inr (inl b)) => JBool b
  | inr (inr (inr (inl n))) => JNum n
  | inr (inr (inr (inr s))) => JStr s
  end.

#[global] Instance jsval_countable : Countable jsval.
Proof.
  apply (inj_countable' jsval_to_sum jsval_of_sum).
  intros []; reflexivity.
Defined.

(** [ToBoolean]: what [!v], [v || w] and [if (v)] test. *)
Definition truthy (v : jsval) : bool :=
  match v with
  | JUndefined | JNull => false
  | JBool b => b
  | JNum n => negb (n =? 0)
  | JStr s => negb (String.eqb s "")
  end.

(** [a || b] *)
Definition js_or (a b : jsval) : jsval := if truthy a then a else b.

(** [a === b] and [a !== b] on scalars. *)
Definition strict_eq (a b : jsval) : bool := bool_decide (a = b).
Definition strict_neq (a b : jsval) : bool := negb (strict_eq a b).

(** [typeof v !== 'string'] *)
Definition is_string (v : jsval) : bool :=
  match v with JStr _ => true | _ => false end.

(** The double nearest to the integer [n >= 0]: [n] itself up to 53
    bits, and beyond that [n] rounded to 53 significant bits, a tie going
    to the even significand. *)
Definition to_double (n : Z) : Z :=
  let bits := Z.log2 n + 1 in
  if bits <=? 53 then n
  else
    let ulp := 2 ^ (bits - 53) in
    let r := n mod ulp in
    let down := n - r in
    if 2 * r <? ulp then down
    else if ulp <? 2 * r then down + ulp
    else if Z.even (down / ulp) then down else down + ulp.

(** [Number.MAX_VALUE] *)
Definition MAX_VALUE : Z := (2 ^ 53 - 1) * 2 ^ 971.

(** The decimal that [Number::toString] prints for the double [x]: of
    the integers that read back as [x], the one with the fewest
    significant digits and, among those, the nearest to [x] (the even one
    on a tie).  At each scale, from the coarsest down, the candidates are
    the two multiples of [scale] around [x]. *)
Fixpoint shortest (fuel : nat) (x scale : Z) : Z :=
  match fuel with
  | O => x
  | S fuel' =>
      let lo := x / scale * scale in
      let hi := lo + scale in
      match to_double lo =? x, to_double hi =? x with
      | true, true =>
          if x - lo <? hi - x then lo
          else if hi - x <? x - lo then hi
          else if Z.even (lo / scale) then lo else hi
      | true, false => lo
      | false, true => hi
      | false, false => shortest fuel' x (scale / 10)
      end
  end.

Fixpoint strip_zeros (s : string) : string :=
  match s with
  | EmptyString => EmptyString
  | String c r =>
      match strip_zeros r with
      | EmptyString => if Ascii.eqb c "0" then EmptyString else String c EmptyString
      | r' => String c r'
      end
  end.

(** [Number::toString(x)] for a double [x > 0] of integer value: plain
    digits below 10^21, and from there on the significant digits with a
    point after the first one and the exponent, as in [1.5e+21]. *)
Definition digits_of_double (x : Z) : string :=
  let n := String.length (pretty x) in
  let v := shortest n x (10 ^ (Z.of_nat n - 1)) in
  let digits := pretty v in
  if v <? 10 ^ 21 then digits
  else
    let e := pretty (Z.of_nat (String.length digits) - 1) in
    match strip_zeros digits with
    | String d EmptyString => String d ("e+" +:+ e)
    | String d more => String d ("." +:+ more +:+ "e+" +:+ e)
    | EmptyString => digits
    end.

(** [Number::toString] on an integer.  Up to 2^53 the integer is a double
    and its digits are the shortest that read back as it.  A larger one
    is printed as the double that holds it; a numeric literal that no
    double holds denotes the nearest double, or [Infinity] past
    [MAX_VALUE]. *)
Definition Number_toString (n : Z) : string :=
  if Z.abs n <=? 2 ^ 53 then pretty n
  else
    let x := to_double (Z.abs n) in
    (if n <? 0 then "-" else "")
    +:+ (if MAX_VALUE <? x then "Infinity" else digits_of_double x).

(** [ToString], as a template literal [`${v}`] applies it. *)
Definition to_String (v : jsval) : string :=
  match v with
  | JUndefined => "undefined"
  | JNull => "null"
  | JBool true => "true"
  | JBool false => "false"
  | JNum n => Number_toString n
  | JStr s => s
  end.

(** [v.length] of a non-nullish scalar: defined on strings only. *)
Definition js_length (v : jsval) : jsval :=
  match v with
  | JStr s => JNum (Z.of_nat (String.length s))
  | _ => JUndefined
  end.

End Js.
Import Js.

(* ===================================================================== *)
(** ** Strings: the few [String.prototype] methods the code uses           *)
(* ===================================================================== *)

Module Str.

(** [\d] *)
Definition is_digit (c : ascii) : bool :=
  ((48 <=? N_of_ascii c) && (N_of_ascii c <=? 57))%N.

(** [s.replace(/\D/g, '')] *)
Fixpoint strip_non_digits (s : string) : string :=
  match s with
  | EmptyString => EmptyString
  | String c r =>
      if is_digit c then String c (strip_non_digits r) else strip_non_digits r
  end.

(** [s.startsWith(p)] *)
Definition startsWith (s p : string) : bool := String.prefix p s.

Fixpoint all_digits (s : string) : bool :=
  match s with
  | EmptyString => true
  | String c r => is_digit c && all_digits r
  end.

(** [s.includes(c)] for a one-character needle. *)
Fixpoint has_char (c : ascii) (s : string) : bool :=
  match s with
  | EmptyString => false
  | String d r => Ascii.eqb c d || has_char c r
  end.

(** White space of [String.prototype.trim] among code units below 256. *)
Definition is_js_space (c : ascii) : bool :=
  match N_of_ascii c with
  | 9 | 10 | 11 | 12 | 13 | 32 | 160 => true
  | _ => false
  end%N.

Fixpoint trim_start (s : string) : string :=
  match s with
  | EmptyString => EmptyString
  | String c r => if is_js_space c then trim_start r else s
  end.

Fixpoint trim_end (s : string) : string :=
  match s with
  | EmptyString => EmptyString
  | String c r =>
      match trim_end r with
      | EmptyString => if is_js_space c then EmptyString else String c EmptyString
      | r' => String c r'
      end
  end.

(** [s.trim()] *)
Definition trim (s : string) : string := trim_end (trim_start s).

(** [s.includes(t)] *)
Fixpoint includes (s t : string) : bool :=
  String.prefix t s ||
  match s with
  | EmptyString => false
  | String _ r => includes r t
  end.

End Str.
Import Str.

(* ===================================================================== *)
(** ** Phone formatting ([TwoFactorService])                               *)
(* ===================================================================== *)

(** [formatPhoneNumber(phoneNumber)]: the storage form, with [+]. *)
Definition formatPhoneNumber (phoneNumber : string) : string :=
  let cleaned := strip_non_digits phoneNumber in
  if startsWith cleaned "91" then "+" +:+ cleaned
  else if (String.length cleaned =? 10)%nat then "+91" +:+ cleaned
  else if startsWith phoneNumber "+" then phoneNumber
  else "+" +:+ cleaned.

(** [formatPhoneForAPI(phoneNumber)]: the gateway form, without [+]. *)
Definition formatPhoneForAPI (phoneNumber : string) : string :=
  let cleaned := strip_non_digits phoneNumber in
  if startsWith cleaned "91" then cleaned
  else if (String.length cleaned =? 10)%nat then "91" +:+ cleaned
  else cleaned.

(* ===================================================================== *)
(** ** State and exceptions                                                *)
(* ===================================================================== *)

(** A thrown [Error].  [response_data_Details] is what
    [error.response?.data?.Details] reads: [JUndefined] for every error
    that is not an HTTP error of the gateway. *)
Module Exn.
Record js_error : Type := mk_error {
  response_data_Details : jsval;
  message : jsval
}.
End Exn.
Export Exn (js_error, mk_error).

(** [new Error(msg)] *)
Definition Error (msg : string) : js_error := mk_error JUndefined (JStr msg).

(** A computation over a mutable state [S] that returns or throws. *)
Definition M (S A : Type) : Type := S -> (A + js_error) * S.

#[global] Instance M_ret {S} : MRet (M S) := fun A (a : A) s => (inl a, s).

#[global] Instance M_bind {S} : MBind (M S) := fun A B (f : A -> M S B) (m : M S A) s =>
  match m s with
  | (inl a, s') => f a s'
  | (inr e, s') => (inr e, s')
  end.

(** [throw e] *)
Definition throw {S A} (e : js_error) : M S A := fun s => (inr e, s).

(** [try { m } catch (error) { h error }].  The state changes made by [m]
    before it threw are kept, as in JavaScript. *)
Definition try_catch {S A} (m : M S A) (h : js_error -> M S A) : M S A := fun s =>
  match m s with
  | (inl a, s') => (inl a, s')
  | (inr e, s') => h e s'
  end.

Definition gets {S A} (f : S -> A) : M S A := fun s => (inl (f s), s).
Definition modify {S} (f : S -> S) : M S unit := fun s => (inl tt, f s).

(* ===================================================================== *)
(** ** Documents and sessions                                              *)
(* ===================================================================== *)

(** A [User] document, with the fields the login flow reads or writes
    (the schema's other fields, such as [joinDate] and [watchlist], are
    never touched by it). *)
Module User.
Record t : Type := {
  _id : nat;
  name : jsval;
  phoneNumber : jsval;
  city : jsval;
  email : jsval;
  lastLogin : Z
}.
End User.

(** A [Lead] document as the verify handler builds it. *)
Module Lead.
Record t : Type := {
  _id : nat;
  name : jsval;
  phone : jsval;
  email : jsval;
  city : jsval;
  propertyId : jsval;
  propertyName : jsval;
  propertyUrl : jsval;
  propertyInterest : jsval;
  source : string;
  status : string;
  priority : string;
  notes : list (string * Z)      (* note, addedAt *)
}.
End Lead.

(** A value of the [otpSessions] map. *)
Module Session.
Record t : Type := {
  phoneNumber : jsval;
  phone : jsval;
  name : jsval;
  city : jsval;
  propertyId : jsval;
  propertyName : jsval;
  propertyUrl : jsval;
  createdAt : Z;
  attempts : Z;
  verified : bool;
  otpType : jsval
}.

(** [session.attempts = n] *)
Definition set_attempts (n : Z) (s : t) : t :=
  {| phoneNumber := phoneNumber s; phone := phone s; name := name s; city := city s;
     propertyId := propertyId s; propertyName := propertyName s;
     propertyUrl := propertyUrl s; createdAt := createdAt s;
     attempts := n; verified := verified s; otpType := otpType s |}.

(** [session.verified = b] *)
Definition set_verified (b : bool) (s : t) : t :=
  {| phoneNumber := phoneNumber s; phone := phone s; name := name s; city := city s;
     propertyId := propertyId s; propertyName := propertyName s;
     propertyUrl := propertyUrl s; createdAt := createdAt s;
     attempts := attempts s; verified := b; otpType := otpType s |}.
End Session.

(* ===================================================================== *)
(** ** The outside world                                                   *)
(* ===================================================================== *)

(** What [await axios.get(url, ...)] does.  [Resolved Status Details] is a
    response whose [data] has these two fields ([JUndefined] when absent);
    [Rejected e] is a rejected promise: network error, timeout, non-2xx
    status.  A resolved response whose [data] is [null] or [undefined]
    makes [response.data.Status] throw a [TypeError] inside the same
    [try]; the [catch] handles it as a rejection without [response], so it
    is a [Rejected] too. *)
Inductive axios_result : Type :=
| Resolved (Status Details : jsval)
| Rejected (e : js_error).

Inductive db_op : Type := UserFindOne | UserSave | LeadSave.

(** Everything one handler run reads from outside the process.  The
    database calls and the two token signers of [middleware/jwtAuth.js]
    can throw; what the signers return is a parameter. *)
Record world : Type := {
  TWO_FACTOR_API_KEY : option string;       (* process.env.TWO_FACTOR_API_KEY *)
  axios_get : string -> axios_result;       (* the gateway, by URL *)
  Date_now : Z;                             (* the clock, in milliseconds *)
  db_throws : db_op -> option js_error;     (* a database call that rejects *)
  generateToken : User.t -> string + js_error;
  generateRefreshToken : User.t -> string + js_error
}.

(* ===================================================================== *)
(** ** The gateway client ([TwoFactorService])                             *)
(* ===================================================================== *)

Module TwoFactorService.

(** The object literals the service methods return; a field a literal
    does not have is [JUndefined]. *)
Record result : Type := {
  success : bool;
  sessionId : jsval;
  message : jsval;
  type : jsval;
  dbFormattedPhone : jsval;
  fallback : jsval;
  error : jsval
}.

Definition succeeded (sid : jsval) : result :=
  {| success := true; sessionId := sid; message := JUndefined; type := JUndefined;
     dbFormattedPhone := JUndefined; fallback := JUndefined; error := JUndefined |}.

Definition failed (err : jsval) : result :=
  {| success := false; sessionId := JUndefined; message := JUndefined; type := JUndefined;
     dbFormattedPhone := JUndefined; fallback := JUndefined; error := err |}.

(** The object literals [getBalance] returns. *)
Module Balance.
Record result : Type := {
  success : bool;
  balance : jsval;
  message : jsval;
  error : jsval
}.
End Balance.

(** The service only touches the log of URLs it has requested. *)
Abbreviation Svc := (M (list string)).

Definition baseUrl : string := "https://2factor.in/API/V1".

Section Service.
Variable w : world.

(** [getApiKey()] *)
Definition getApiKey : Svc string :=
  match TWO_FACTOR_API_KEY w with
  | None => throw (Error "2Factor API key is required. Please check your environment configuration.")
  | Some raw =>
      if String.eqb raw ""
      then throw (Error "2Factor API key is required. Please check your environment configuration.")
      else
        let apiKey := trim raw in
        if String.eqb apiKey "" || (String.length apiKey <? 10)%nat
        then throw (Error "Invalid 2Factor API key. Please check your environment configuration.")
        else mret apiKey
  end.

(** [await axios.get(url, ...)]: the request is logged, then the promise
    resolves with [response.data]'s two fields or rejects. *)
Definition axios_GET (url : string) : Svc (jsval * jsval) := fun log =>
  match axios_get w url with
  | Resolved st d => (inl (st, d), log ++ [url])
  | Rejected e => (inr e, log ++ [url])
  end.

Definition sms_url (apiKey apiFormattedPhone : string) : string :=
  baseUrl +:+ "/" +:+ apiKey +:+ "/SMS/" +:+ apiFormattedPhone +:+ "/AUTOGEN/UrbanestaOTP".

Definition voice_url (apiKey apiFormattedPhone : string) : string :=
  baseUrl +:+ "/" +:+ apiKey +:+ "/SMS/" +:+ apiFormattedPhone +:+ "/AUTOGEN/VOICE".

Definition verify_url (apiKey sessionId otp : string) : string :=
  baseUrl +:+ "/" +:+ apiKey +:+ "/SMS/VERIFY/" +:+ sessionId +:+ "/" +:+ otp.

(** [sendSMSOTP(apiFormattedPhone)] *)
Definition sendSMSOTP (apiFormattedPhone : string) : Svc result :=
  try_catch
    (apiKey ← getApiKey;
     '(Status, Details) ← axios_GET (sms_url apiKey apiFormattedPhone);
     if strict_eq Status (JStr "Success")
     then mret (succeeded Details)
     else mret (failed (js_or Details (JStr "SMS delivery failed"))))
    (fun e =>
       mret (failed (js_or (Exn.response_data_Details e)
                           (js_or (Exn.message e) (JStr "SMS API error"))))).

(** [sendVoiceOTP(apiFormattedPhone)] *)
Definition sendVoiceOTP (apiFormattedPhone : string) : Svc result :=
  try_catch
    (apiKey ← getApiKey;
     '(Status, Details) ← axios_GET (voice_url apiKey apiFormattedPhone);
     if strict_eq Status (JStr "Success")
     then mret (succeeded Details)
     else mret (failed (js_or Details (JStr "Voice delivery failed"))))
    (fun e =>
       mret (failed (js_or (Exn.response_data_Details e)
                           (js_or (Exn.message e) (JStr "Voice API error"))))).

(** [sendOTP(phoneNumber)]: SMS first, then voice. *)
Definition sendOTP (phoneNumber : jsval) : Svc result :=
  try_catch
    (if negb (truthy phoneNumber) || negb (is_string phoneNumber)
     then throw (Error "Phone number is required and must be a string")
     else
       let apiFormattedPhone := formatPhoneForAPI (to_String phoneNumber) in
       let dbFormattedPhone := formatPhoneNumber (to_String phoneNumber) in
       smsResult ← sendSMSOTP apiFormattedPhone;
       if success smsResult
       then mret {| success := true;
                    sessionId := sessionId smsResult;
                    message := JStr "SMS OTP sent successfully";
                    type := JStr "sms";
                    dbFormattedPhone := JStr dbFormattedPhone;
                    fallback := JUndefined;
                    error := JUndefined |}
       else
         voiceResult ← sendVoiceOTP apiFormattedPhone;
         if success voiceResult
         then mret {| success := true;
                      sessionId := sessionId voiceResult;
                      message := JStr "Unable to send SMS OTP. Voice OTP has been sent to your number.";
                      type := JStr "voice";
                      dbFormattedPhone := JStr dbFormattedPhone;
                      fallback := JBool true;
                      error := JUndefined |}
         else mret (failed (JStr ("Unable to send OTP. SMS error: "
                                    +:+ to_String (error smsResult)
                                    +:+ ". Voice error: "
                                    +:+ to_String (error voiceResult)))))
    (fun e => mret (failed (js_or (Exn.message e) (JStr "Failed to send OTP")))).

(** [verifyOTP(sessionId, otp)]: one request, no retry. *)
Definition verifyOTP (sessionId otp : jsval) : Svc result :=
  try_catch
    (if negb (truthy sessionId) || negb (is_string sessionId)
     then throw (Error "Session ID is required and must be a string")
     else if negb (truthy otp) || negb (is_string otp)
     then throw (Error "OTP is required and must be a string")
     else
       apiKey ← getApiKey;
       '(Status, Details) ← axios_GET (verify_url apiKey (to_String sessionId) (to_String otp));
       if strict_eq Status (JStr "Success")
       then mret {| success := true; sessionId := JUndefined;
                    message := JStr "OTP verified successfully"; type := JUndefined;
                    dbFormattedPhone := JUndefined; fallback := JUndefined;
                    error := JUndefined |}
       else mret (failed (js_or Details (JStr "Invalid OTP"))))
    (fun e =>
       mret (failed (js_or (Exn.response_data_Details e)
                           (js_or (Exn.message e) (JStr "Failed to verify OTP"))))).

Definition balance_url (apiKey : string) : string :=
  baseUrl +:+ "/" +:+ apiKey +:+ "/BAL/TRANSACTION".

(** [getBalance()] *)
Definition getBalance : Svc Balance.result :=
  try_catch
    (apiKey ← getApiKey;
     '(Status, Details) ← axios_GET (balance_url apiKey);
     if strict_eq Status (JStr "Success")
     then mret {| Balance.success := true;
                  Balance.balance := Details;
                  Balance.message := JStr "Balance retrieved successfully";
                  Balance.error := JUndefined |}
     else mret {| Balance.success := false;
                  Balance.balance := JUndefined;
                  Balance.message := JUndefined;
                  Balance.error := js_or Details (JStr "Failed to get balance") |})
    (fun e =>
       mret {| Balance.success := false;
               Balance.balance := JUndefined;
               Balance.message := JUndefined;
               Balance.error := js_or (Exn.message e) (JStr "Failed to get balance") |}).

End Service.
End TwoFactorService.

(* ===================================================================== *)
(** ** The OTP router                                                      *)
(* ===================================================================== *)

(** The process state the two handlers work on.  [otpSessions] is the
    module-level [Map]; [users] and [leads] are the two collections, in
    insertion order; [requests] logs every URL handed to [axios.get];
    [next_oid] numbers the documents created so far.  A handler runs to
    completion before the next one starts. *)
Record server : Type := {
  otpSessions : gmap jsval Session.t;
  users : list User.t;
  leads : list Lead.t;
  requests : list string;
  next_oid : nat
}.

Definition with_otpSessions (f : gmap jsval Session.t -> gmap jsval Session.t)
    (st : server) : server :=
  {| otpSessions := f (otpSessions st); users := users st; leads := leads st;
     requests := requests st; next_oid := next_oid st |}.

Definition with_users (f : list User.t -> list User.t) (st : server) : server :=
  {| otpSessions := otpSessions st; users := f (users st); leads := leads st;
     requests := requests st; next_oid := next_oid st |}.

Definition with_leads (f : list Lead.t -> list Lead.t) (st : server) : server :=
  {| otpSessions := otpSessions st; users := users st; leads := f (leads st);
     requests := requests st; next_oid := next_oid st |}.

Definition with_requests (l : list string) (st : server) : server :=
  {| otpSessions := otpSessions st; users := users st; leads := leads st;
     requests := l; next_oid := next_oid st |}.

(** [await twoFactorService.method(...)], run on the server's log. *)
Definition call_service {A} (m : TwoFactorService.Svc A) : M server A := fun st =>
  let '(r, log) := m (requests st) in (r, with_requests log st).

(** A fresh [ObjectId], as [new User(...)] and [new Lead(...)] draw one. *)
Definition fresh_oid : M server nat := fun st =>
  (inl (next_oid st),
   {| otpSessions := otpSessions st; users := users st; leads := leads st;
      requests := requests st; next_oid := S (next_oid st) |}).

(** Request bodies. *)
Module SendReq.
Record t : Type := {
  phone : jsval; name : jsval; city : jsval;
  propertyId : jsval; propertyName : jsval; propertyUrl : jsval
}.
End SendReq.

Module VerifyReq.
Record t : Type := {
  sessionId : jsval; otp : jsval; name : jsval; city : jsval;
  propertyId : jsval; propertyName : jsval; propertyUrl : jsval; source : jsval
}.
End VerifyReq.

(** Responses. *)
Module UserJson.
Record t : Type := {
  id : nat; name : jsval; phone : jsval; phoneNumber : jsval; city : jsval;
  email : jsval; isReturning : bool; isNew : bool
}.
End UserJson.

Module LeadJson.
Record t : Type := { id : nat; propertyName : jsval }.
End LeadJson.

Inductive body : Type :=
| Plain (success : bool) (message : jsval)             (* {success, message} *)
| Sent (message : string) (sessionId : jsval)          (* {success: true, message, sessionId} *)
| LoggedIn (message : string) (user : UserJson.t) (lead : LeadJson.t)
           (token refreshToken : string).              (* {success: true, ...} *)

Record cookie : Type := { cookie_name : string; cookie_value : string; maxAge : Z }.

Record response : Type := { status : Z; cookies : list cookie; json : body }.

(** [res.status(code).json({success: false, message})] *)
Definition refuse (code : Z) (msg : jsval) : response :=
  {| status := code; cookies := []; json := Plain false msg |}.

Definition ten_minutes : Z := 10 * 60 * 1000.

Section Handlers.
Variable w : world.

(** A database call: rejects when the world says so. *)
Definition db_call (op : db_op) : M server unit :=
  match db_throws w op with
  | Some e => throw e
  | None => mret tt
  end.

(** [await User.findOne({ phoneNumber })]: the first matching document and
    its place in the collection, or [null]. *)
Definition User_findOne (phoneNumber : jsval) : M server (option (nat * User.t)) :=
  _ ← db_call UserFindOne;
  gets (fun st => list_find (fun u => User.phoneNumber u = phoneNumber) (users st)).

(** [await user.save()] on a document made by [new User(...)]. *)
Definition User_save_new (user : User.t) : M server unit :=
  _ ← db_call UserSave;
  modify (with_users (fun us => us ++ [user])).

(** [await user.save()] on the document [findOne] returned: written back
    in place. *)
Definition User_save_found (i : nat) (user : User.t) : M server unit :=
  _ ← db_call UserSave;
  modify (with_users (fun us => <[i := user]> us)).

(** [await lead.save()] *)
Definition Lead_save (lead : Lead.t) : M server unit :=
  _ ← db_call LeadSave;
  modify (with_leads (fun ls => ls ++ [lead])).

(** A call that returns a token or throws. *)
Definition sign (r : string + js_error) : M server string :=
  match r with
  | inl t => mret t
  | inr e => throw e
  end.

(** The clean-up loop of [/send-otp]: every entry created more than ten
    minutes ago is deleted. *)
Definition sweep (tenMinutesAgo : Z) (m : gmap jsval Session.t) : gmap jsval Session.t :=
  filter (fun kv => ¬ (Session.createdAt kv.2 < tenMinutesAgo)) m.

(** [router.post('/send-otp', ...)] *)
Definition send_otp (req : SendReq.t) : M server response :=
  try_catch
    (let phone := SendReq.phone req in
     if negb (truthy phone) || strict_neq (js_length phone) (JNum 10)
     then mret (refuse 400 (JStr "Please provide a valid 10-digit phone number"))
     else
       let phoneNumber := JStr ("+91" +:+ to_String phone) in
       result ← call_service (TwoFactorService.sendOTP w phoneNumber);
       if TwoFactorService.success result
       then
         let sessionId := TwoFactorService.sessionId result in
         _ ← modify (with_otpSessions (insert sessionId
                {| Session.phoneNumber :=
                     js_or (TwoFactorService.dbFormattedPhone result) phoneNumber;
                   Session.phone := phone;
                   Session.name := SendReq.name req;
                   Session.city := SendReq.city req;
                   Session.propertyId := SendReq.propertyId req;
                   Session.propertyName := SendReq.propertyName req;
                   Session.propertyUrl := SendReq.propertyUrl req;
                   Session.createdAt := Date_now w;
                   Session.attempts := 0;
                   Session.verified := false;
                   Session.otpType := js_or (TwoFactorService.type result) (JStr "sms") |}));
         _ ← modify (with_otpSessions (sweep (Date_now w - ten_minutes)));
         mret {| status := 200; cookies := [];
                 json := Sent "OTP sent successfully to your mobile number" sessionId |}
       else
         mret (refuse 500 (js_or (TwoFactorService.error result)
                                 (JStr "Failed to send OTP. Please try again."))))
    (fun _ => mret (refuse 500 (JStr "Internal server error. Please try again."))).

(** The user upsert of [/verify-otp]: find the user by the session's phone
    number, create or update it, and say which it was
    ([user], [isNewUser], [isReturningUser]). *)
Definition upsert_user (name city : jsval) (session : Session.t)
    : M server (User.t * bool * bool) :=
  found ← User_findOne (Session.phoneNumber session);
  match found with
  | None =>
      oid ← fresh_oid;
      let user :=
        {| User._id := oid;
           User.name := js_or name (js_or (Session.name session) (JStr "User"));
           User.phoneNumber := Session.phoneNumber session;
           User.city := js_or city (JStr "Delhi");
           User.email := JNull;
           User.lastLogin := Date_now w |} in
      _ ← User_save_new user;
      mret (user, true, false)
  | Some (i, user) =>
      let name' :=
        if truthy name && strict_neq name (JStr "User") && strict_neq (User.name user) name
        then name else User.name user in
      let city' :=
        if truthy city && strict_neq (User.city user) city
        then city else User.city user in
      let user :=
        {| User._id := User._id user;
           User.name := name';
           User.phoneNumber := User.phoneNumber user;
           User.city := city';
           User.email := User.email user;
           User.lastLogin := Date_now w |} in
      _ ← User_save_found i user;
      mret (user, false, true)
  end.

(** [router.post('/verify-otp', ...)] *)
Definition verify_otp (req : VerifyReq.t) : M server response :=
  try_catch
    (let sessionId := VerifyReq.sessionId req in
     let otp := VerifyReq.otp req in
     if negb (truthy sessionId) || negb (truthy otp)
     then mret (refuse 400 (JStr "Session ID and OTP are required"))
     else
       stored ← gets (fun st => otpSessions st !! sessionId);
       match stored with
       | None =>
           mret (refuse 400 (JStr "Session expired or invalid. Please request a new OTP."))
       | Some session =>
           let tenMinutesAgo := Date_now w - ten_minutes in
           if Session.createdAt session <? tenMinutesAgo
           then
             _ ← modify (with_otpSessions (delete sessionId));
             mret (refuse 400 (JStr "Session has expired. Please request a new OTP."))
           else if 3 <=? Session.attempts session
           then
             _ ← modify (with_otpSessions (delete sessionId));
             mret (refuse 400 (JStr "Maximum attempts exceeded. Please request a new OTP."))
           else
             result ← call_service (TwoFactorService.verifyOTP w sessionId otp);
             if negb (TwoFactorService.success result)
             then
               (* session.attempts += 1 changes the object the map holds *)
               let session := Session.set_attempts (Session.attempts session + 1) session in
               _ ← modify (with_otpSessions (insert sessionId session));
               mret (refuse 400 (JStr ("Invalid OTP. "
                                         +:+ pretty (3 - Session.attempts session)
                                         +:+ " attempts remaining.")))
             else
               (* session.verified = true changes the object the map holds *)
               let session := Session.set_verified true session in
               _ ← modify (with_otpSessions (insert sessionId session));
               upserted ← upsert_user (VerifyReq.name req) (VerifyReq.city req) session;
               let '(user, isNewUser, isReturningUser) :=
                 (upserted : User.t * bool * bool) in
               oid ← fresh_oid;
               let lead :=
                 {| Lead._id := oid;
                    Lead.name := User.name user;
                    Lead.phone := Session.phone session;
                    Lead.email := js_or (User.email user) JNull;
                    Lead.city := js_or (User.city user)
                                       (js_or (VerifyReq.city req) (JStr "Delhi"));
                    Lead.propertyId := js_or (VerifyReq.propertyId req) JNull;
                    Lead.propertyName := js_or (VerifyReq.propertyName req) JNull;
                    Lead.propertyUrl := js_or (VerifyReq.propertyUrl req) JNull;
                    Lead.propertyInterest := js_or (VerifyReq.propertyName req) JNull;
                    Lead.source := "website";
                    Lead.status := "new";
                    Lead.priority := "medium";
                    Lead.notes :=
                      [("Lead captured via OTP verification from "
                          +:+ to_String (js_or (VerifyReq.source req) (JStr "get_in_touch_otp")),
                        Date_now w)] |} in
               _ ← Lead_save lead;
               _ ← modify (with_otpSessions (delete sessionId));
               token ← sign (generateToken w user);
               refreshToken ← sign (generateRefreshToken w user);
               let accessAge := 15 * 60 * 1000 in
               let refreshAge := 30 * 24 * 60 * 60 * 1000 in
               mret
                 {| status := 200;
                    cookies :=
                      [ {| cookie_name := "urbanesta_token"; cookie_value := token;
                           maxAge := accessAge |};
                        {| cookie_name := "token"; cookie_value := token;
                           maxAge := accessAge |};
                        {| cookie_name := "refreshToken"; cookie_value := refreshToken;
                           maxAge := refreshAge |};
                        {| cookie_name := "userId"; cookie_value := pretty (User._id user);
                           maxAge := accessAge |} ];
                    json :=
                      LoggedIn
                        (if isReturningUser then "Welcome back! You're logged in."
                         else "Account created successfully. Welcome!")
                        {| UserJson.id := User._id user;
                           UserJson.name := User.name user;
                           UserJson.phone := Session.phone session;
                           UserJson.phoneNumber := User.phoneNumber user;
                           UserJson.city := User.city user;
                           UserJson.email := User.email user;
                           UserJson.isReturning := isReturningUser;
                           UserJson.isNew := isNewUser |}
                        {| LeadJson.id := Lead._id lead;
                           LeadJson.propertyName := Lead.propertyName lead |}
                        token refreshToken |}
       end)
    (fun _ => mret (refuse 500 (JStr "Failed to verify OTP. Please try again."))).

End Handlers.

(* ===================================================================== *)
(** ** Vocabulary of the statements                                        *)
(* ===================================================================== *)

Section Vocabulary.

(** What a service call answers and which URLs it requests, read off a
    run that starts with an empty log. *)
Definition gateway_reply {A} (m : TwoFactorService.Svc A) : A + js_error := (m []).1.
Definition gateway_urls {A} (m : TwoFactorService.Svc A) : list string := (m []).2.

(** A service call only appends to the log, and what it does never
    depends on the log. *)
Definition appends_only {A} (m : TwoFactorService.Svc A) : Prop :=
  exists r urls, forall log, m log = (r, log ++ urls).

Variable w : world.

(** The gateway's verdict on a code. *)
Definition rejected (sid otp : jsval) : bool :=
  match gateway_reply (TwoFactorService.verifyOTP w sid otp) with
  | inl r => negb (TwoFactorService.success r)
  | inr _ => false
  end.

Definition accepted (sid otp : jsval) : bool :=
  match gateway_reply (TwoFactorService.verifyOTP w sid otp) with
  | inl r => TwoFactorService.success r
  | inr _ => false
  end.

(** The document [new User({...})] builds, and the one an existing user
    is saved as. *)
Definition created_user (name city : jsval) (session : Session.t) (oid : nat) : User.t :=
  {| User._id := oid;
     User.name := js_or name (js_or (Session.name session) (JStr "User"));
     User.phoneNumber := Session.phoneNumber session;
     User.city := js_or city (JStr "Delhi");
     User.email := JNull;
     User.lastLogin := Date_now w |}.

Definition updated_user (name city : jsval) (old : User.t) : User.t :=
  {| User._id := User._id old;
     User.name :=
       if truthy name && strict_neq name (JStr "User") && strict_neq (User.name old) name
       then name else User.name old;
     User.phoneNumber := User.phoneNumber old;
     User.city :=
       if truthy city && strict_neq (User.city old) city then city else User.city old;
     User.email := User.email old;
     User.lastLogin := Date_now w |}.

Definition bump_oid (st : server) : server :=
  {| otpSessions := otpSessions st; users := users st; leads := leads st;
     requests := requests st; next_oid := S (next_oid st) |}.

(** The lead, the success response and the 500 response of [/verify-otp]. *)
Definition built_lead (req : VerifyReq.t) (session : Session.t) (user : User.t)
    (oid : nat) : Lead.t :=
  {| Lead._id := oid;
     Lead.name := User.name user;
     Lead.phone := Session.phone session;
     Lead.email := js_or (User.email user) JNull;
     Lead.city := js_or (User.city user) (js_or (VerifyReq.city req) (JStr "Delhi"));
     Lead.propertyId := js_or (VerifyReq.propertyId req) JNull;
     Lead.propertyName := js_or (VerifyReq.propertyName req) JNull;
     Lead.propertyUrl := js_or (VerifyReq.propertyUrl req) JNull;
     Lead.propertyInterest := js_or (VerifyReq.propertyName req) JNull;
     Lead.source := "website";
     Lead.status := "new";
     Lead.priority := "medium";
     Lead.notes :=
       [("Lead captured via OTP verification from "
           +:+ to_String (js_or (VerifyReq.source req) (JStr "get_in_touch_otp")),
         Date_now w)] |}.

Definition user_json (session : Session.t) (user : User.t) (isNewUser isReturningUser : bool)
    : UserJson.t :=
  {| UserJson.id := User._id user;
     UserJson.name := User.name user;
     UserJson.phone := Session.phone session;
     UserJson.phoneNumber := User.phoneNumber user;
     UserJson.city := User.city user;
     UserJson.email := User.email user;
     UserJson.isReturning := isReturningUser;
     UserJson.isNew := isNewUser |}.

Definition verify_failed : response :=
  refuse 500 (JStr "Failed to verify OTP. Please try again.").

(** What [/verify-otp] does once the user upsert has run to [upserted]. *)
Definition after_upsert (req : VerifyReq.t) (session : Session.t)
    (upserted : (User.t * bool * bool + js_error) * server)
    : (response + js_error) * server :=
  match upserted with
  | (inr _, st2) => (inl verify_failed, st2)
  | (inl (user, isNewUser, isReturningUser), st2) =>
      match db_throws w LeadSave with
      | Some _ => (inl verify_failed, bump_oid st2)
      | None =>
          let lead := built_lead req session user (next_oid st2) in
          let st3 :=
            with_otpSessions (delete (VerifyReq.sessionId req))
              (with_leads (fun ls => ls ++ [lead]) (bump_oid st2)) in
          match generateToken w user, generateRefreshToken w user with
          | inl token, inl refreshToken =>
              (inl {| status := 200;
                      cookies :=
                        [ {| cookie_name := "urbanesta_token"; cookie_value := token;
                             maxAge := 900000 |};
                          {| cookie_name := "token"; cookie_value := token;
                             maxAge := 900000 |};
                          {| cookie_name := "refreshToken"; cookie_value := refreshToken;
                             maxAge := 2592000000 |};
                          {| cookie_name := "userId"; cookie_value := pretty (User._id user);
                             maxAge := 900000 |} ];
                      json :=
                        LoggedIn
                          (if isReturningUser then "Welcome back! You're logged in."
                           else "Account created successfully. Welcome!")
                          (user_json session user isNewUser isReturningUser)
                          {| LeadJson.id := Lead._id lead;
                             LeadJson.propertyName := Lead.propertyName lead |}
                          token refreshToken |}, st3)
          | _, _ => (inl verify_failed, st3)
          end
      end
  end.

(** The URLs one delivery attempt requests: none when [getApiKey]
    throws, else the one built by [mk]. *)
Definition attempt_urls (mk : string -> string -> string) (apiFormattedPhone : string)
    : list string :=
  match gateway_reply (TwoFactorService.getApiKey w) with
  | inl apiKey => [mk apiKey apiFormattedPhone]
  | inr _ => []
  end.

(** The session [/send-otp] stores for a request the gateway accepted
    with [result]. *)
Definition fresh_session (req : SendReq.t) (result : TwoFactorService.result)
    : Session.t :=
  {| Session.phoneNumber :=
       js_or (TwoFactorService.dbFormattedPhone result) (JStr ("+91" +:+ to_String (SendReq.phone req)));
     Session.phone := SendReq.phone req;
     Session.name := SendReq.name req;
     Session.city := SendReq.city req;
     Session.propertyId := SendReq.propertyId req;
     Session.propertyName := SendReq.propertyName req;
     Session.propertyUrl := SendReq.propertyUrl req;
     Session.createdAt := Date_now w;
     Session.attempts := 0;
     Session.verified := false;
     Session.otpType := js_or (TwoFactorService.type result) (JStr "sms") |}.

(** The number [/send-otp] hands to the service. *)
Definition dialled (req : SendReq.t) : jsval :=
  JStr ("+91" +:+ to_String (SendReq.phone req)).

End Vocabulary.

(** A verify call that reaches an unexpired session [sid] created at
    [createdAt], and one that in addition carries a code the gateway
    rejects. *)
Definition live_call (sid : jsval) (createdAt : Z) (c : world * VerifyReq.t) : bool :=
  bool_decide (VerifyReq.sessionId c.2 = sid)
  && truthy (VerifyReq.otp c.2)
  && (Date_now c.1 - createdAt <=? ten_minutes).

Definition wrong_code_call (sid : jsval) (createdAt : Z) (c : world * VerifyReq.t) : bool :=
  live_call sid createdAt c && rejected c.1 sid (VerifyReq.otp c.2).

Create HintDb svc.

(* ===================================================================== *)
(** ** A concrete deployment                                               *)
(* ===================================================================== *)

Module Scenario.

(** A gateway that delivers by SMS under session id [sess-1] and accepts
    the code 123456 only. *)
Definition gateway (url : string) : axios_result :=
  if includes url "/VERIFY/" then
    if includes url "/123456" then Resolved (JStr "Success") (JStr "OTP Matched")
    else Resolved (JStr "Error") (JStr "OTP Mismatch")
  else Resolved (JStr "Success") (JStr "sess-1").

Definition no_fault : db_op -> option js_error := fun _ => None.

Definition find_fails : db_op -> option js_error := fun op =>
  match op with
  | UserFindOne => Some (Error "connection lost")
  | _ => None
  end.

Definition world_at (t : Z) (faults : db_op -> option js_error) : world :=
  {| TWO_FACTOR_API_KEY := Some "0123456789abcdef";
     axios_get := gateway;
     Date_now := t;
     db_throws := faults;
     generateToken := fun _ => inl "access.jwt";
     generateRefreshToken := fun _ => inl "refresh.jwt" |}.

Definition boot : server :=
  {| otpSessions := ∅; users := []; leads := []; requests := []; next_oid := 0 |}.

Definition send (phone name city : jsval) : SendReq.t :=
  {| SendReq.phone := phone; SendReq.name := name; SendReq.city := city;
     SendReq.propertyId := JUndefined; SendReq.propertyName := JUndefined;
     SendReq.propertyUrl := JUndefined |}.

Definition verify (otp name city : jsval) : VerifyReq.t :=
  {| VerifyReq.sessionId := JStr "sess-1"; VerifyReq.otp := otp;
     VerifyReq.name := name; VerifyReq.city := city;
     VerifyReq.propertyId := JUndefined; VerifyReq.propertyName := JUndefined;
     VerifyReq.propertyUrl := JUndefined; VerifyReq.source := JUndefined |}.

(** The session that a send at time 1000 for Asha's number leaves. *)
Definition asha : Session.t :=
  {| Session.phoneNumber := JStr "+919876543210";
     Session.phone := JStr "9876543210";
     Session.name := JStr "Asha";
     Session.city := JStr "Mumbai";
     Session.propertyId := JUndefined;
     Session.propertyName := JUndefined;
     Session.propertyUrl := JUndefined;
     Session.createdAt := 1000;
     Session.attempts := 0;
     Session.verified := false;
     Session.otpType := JStr "sms" |}.

Definition opened : server :=
  (send_otp (world_at 1000 no_fault) (send (JStr "9876543210") (JStr "Asha") (JStr "Mumbai")) boot).2.

Definition wrong : VerifyReq.t := verify (JStr "000000") JUndefined JUndefined.
Definition right : VerifyReq.t := verify (JStr "123456") JUndefined JUndefined.

(** A verify call at time [t], with a healthy database. *)
Definition call (t : Z) (req : VerifyReq.t) : world * VerifyReq.t :=
  (world_at t no_fault, req).

(** The state after one, two and three wrong codes. *)
Definition one_wrong : server := (verify_otp (world_at 2000 no_fault) wrong opened).2.
Definition two_wrong : server := (verify_otp (world_at 3000 no_fault) wrong one_wrong).2.
Definition three_wrong : server := (verify_otp (world_at 4000 no_fault) wrong two_wrong).2.

End Scenario.

(* ===================================================================== *)
(** ** The request guards ([validateApiKey], [ipWhitelist])                *)
(* ===================================================================== *)

(** What a guard does with a request: [next()], or
    [res.status(status).json({ error, message })]. *)
Inductive guarded : Type :=
| next
| blocked (status : Z) (error message : string).

(** [process.env.NAME]: a string, or [undefined] when the variable is not
    set. *)
Definition env (v : option string) : jsval :=
  match v with
  | Some s => JStr s
  | None => JUndefined
  end.

(** [validateApiKey], by [process.env.API_KEY] and the request's
    [x-api-key] header ([undefined] when the header is absent). *)
Definition validateApiKey (API_KEY : option string) (x_api_key : jsval) : guarded :=
  let apiKey := x_api_key in
  let validApiKey := env API_KEY in
  if negb (truthy validApiKey) then next
  else if negb (truthy apiKey) || strict_neq apiKey validApiKey
  then blocked 401 "Unauthorized" "Valid API key required"
  else next.

(** [allowedIPs.includes(v)]: on scalars other than [NaN], membership by
    [===]. *)
Definition Array_includes (xs : list jsval) (v : jsval) : bool := existsb (strict_eq v) xs.

(** [ipWhitelist(allowedIPs)], by [req.ip] and
    [req.connection.remoteAddress]. *)
Definition ipWhitelist (allowedIPs : list jsval) (ip remoteAddress : jsval) : guarded :=
  if (length allowedIPs =? 0)%nat then next
  else
    let clientIP := js_or ip remoteAddress in
    if negb (Array_includes allowedIPs clientIP)
    then blocked 403 "Forbidden" "Access denied from this IP address"
    else next.

(* ===================================================================== *)
(** ** Vocabulary of the further properties                                *)
(* ===================================================================== *)

(** A string that does not begin, or does not end, with white space. *)
Definition starts_clean (s : string) : bool :=
  match s with
  | EmptyString => true
  | String c _ => negb (is_js_space c)
  end.

Fixpoint ends_clean (s : string) : bool :=
  match s with
  | EmptyString => true
  | String c EmptyString => negb (is_js_space c)
  | String _ r => ends_clean r
  end.

(** A non-empty string value: what the argument checks of the service
    let through. *)
Definition nonempty_string (v : jsval) : bool := truthy v && is_string v.

(** How one [/verify-otp] call can change the user collection: not at
    all, by appending a user under a phone number nobody had, or by
    rewriting one document without touching its phone number and id. *)
Definition users_step (us us' : list User.t) : Prop :=
  us' = us
  \/ (exists u,
        list_find (fun v => User.phoneNumber v = User.phoneNumber u) us = None
        /\ us' = us ++ [u])
  \/ (exists i old u,
        us !! i = Some old
        /\ User.phoneNumber u = User.phoneNumber old
        /\ User._id u = User._id old
        /\ us' = <[i := u]> us).

(** Every stored session has made between zero and three attempts. *)
Definition attempts_bounded (m : gmap jsval Session.t) : Prop :=
  forall k s, m !! k = Some s -> 0 <= Session.attempts s <= 3.

(** No two users share a phone number. *)
Definition phones_unique (us : list User.t) : Prop :=
  NoDup (User.phoneNumber <$> us).

(** How one [/verify-otp] call can change the entry of the session it
    names: not at all, by deleting it, or, for a session with fewer than
    three attempts, by counting one more attempt or by marking it
    verified. *)
Definition session_step (before after : option Session.t) : Prop :=
  after = before
  \/ after = None
  \/ (exists s,
        before = Some s
        /\ Session.attempts s < 3
        /\ (after = Some (Session.set_attempts (Session.attempts s + 1) s)
            \/ after = Some (Session.set_verified true s))).

(** The requests the router serves, each with the world it runs in, and
    the state a sequence of them leads to when each handler has answered
    before the next one starts. *)
Inductive request : Type :=
| SendOtp (w : world) (req : SendReq.t)
| VerifyOtp (w : world) (req : VerifyReq.t).

Definition handle (st : server) (r : request) : server :=
  match r with
  | SendOtp w req => (send_otp w req st).2
  | VerifyOtp w req => (verify_otp w req st).2
  end.

Definition serve (rs : list request) (st : server) : server := fold_left handle rs st.

(** Worlds in which something goes wrong, and the states the further
    instances start from. *)
Module Trouble.
Import Scenario.

Definition lead_fails : db_op -> option js_error := fun op =>
  match op with
  | LeadSave => Some (Error "Lead validation failed")
  | _ => None
  end.

(** The scenario's world with another key, gateway and access-token
    signer. *)
Definition world_with (key : option string) (get : string -> axios_result)
    (signer : User.t -> string + js_error) (t : Z) : world :=
  {| TWO_FACTOR_API_KEY := key;
     axios_get := get;
     Date_now := t;
     db_throws := no_fault;
     generateToken := signer;
     generateRefreshToken := fun _ => inl "refresh.jwt" |}.

(** A process started without the gateway key. *)
Definition keyless : Z -> world :=
  world_with None gateway (fun _ => inl "access.jwt").

(** A key with white space around it, as a [.env] file may leave it. *)
Definition padded : Z -> world :=
  world_with (Some "  0123456789abcdef
") gateway (fun _ => inl "access.jwt").

(** A process whose access-token signer throws. *)
Definition unsigned : Z -> world :=
  world_with (Some "0123456789abcdef") gateway
    (fun _ => inr (Error "secretOrPrivateKey must have a value")).

(** What [sendOTP] answers in the scenario. *)
Definition sms_sent : TwoFactorService.result :=
  {| TwoFactorService.success := true;
     TwoFactorService.sessionId := JStr "sess-1";
     TwoFactorService.message := JStr "SMS OTP sent successfully";
     TwoFactorService.type := JStr "sms";
     TwoFactorService.dbFormattedPhone := JStr "+919876543210";
     TwoFactorService.fallback := JUndefined;
     TwoFactorService.error := JUndefined |}.

Definition asha_send : SendReq.t := send (JStr "9876543210") (JStr "Asha") (JStr "Mumbai").

(** The code sent as a JSON number. *)
Definition numeric : VerifyReq.t := verify (JNum 123456) JUndefined JUndefined.

(** The state after Asha's first login. *)
Definition logged_in : server := (verify_otp (world_at 2000 no_fault) right opened).2.

End Trouble.

(* ===================================================================== *)
(** ** The model at work                                                   *)
(* ===================================================================== *)

Example formatPhoneForAPI_local : formatPhoneForAPI "9876543210" = "919876543210".
Proof. reflexivity. Qed.
Example formatPhoneForAPI_plus : formatPhoneForAPI "+919876543210" = "919876543210".
Proof. reflexivity. Qed.
Example formatPhoneNumber_local : formatPhoneNumber "9876543210" = "+919876543210".
Proof. reflexivity. Qed.
Example formatPhoneNumber_foreign : formatPhoneNumber "+4412345" = "+4412345".
Proof. reflexivity. Qed.
Example to_String_num : to_String (JNum (-42)) = "-42".
Proof. reflexivity. Qed.
Example to_String_exponent : to_String (JNum (10 ^ 21)) = "1e+21".
Proof. vm_compute. reflexivity. Qed.
Example to_String_fraction : to_String (JNum (-15 * 10 ^ 20)) = "-1.5e+21".
Proof. vm_compute. reflexivity. Qed.
Example to_String_shortest : to_String (JNum (2 ^ 64)) = "18446744073709552000".
Proof. vm_compute. reflexivity. Qed.
Example to_String_below_power : to_String (JNum 99999999999999991611392) = "1e+23".
Proof. vm_compute. reflexivity. Qed.

(** What [Number::toString] prints for a double reads back as that
    double. *)
Lemma shortest_reads_back (fuel : nat) (x scale : Z) :
  to_double x = x -> to_double (shortest fuel x scale) = x.
Proof.
  intros Hx. revert scale. induction fuel as [|fuel IH]; intros scale; [exact Hx|].
  cbn [shortest]. cbv zeta.
  destruct (to_double (x / scale * scale) =? x) eqn:Hlo,
           (to_double (x / scale * scale + scale) =? x) eqn:Hhi.
  - apply Z.eqb_eq in Hlo, Hhi.
    destruct (_ <? _); [exact Hlo|]. destruct (_ <? _); [exact Hhi|].
    destruct (Z.even _); assumption.
  - by apply Z.eqb_eq.
  - by apply Z.eqb_eq.
  - apply IH.
Qed.

(** Up to 2^53 the digits printed are the integer's own. *)
Lemma to_String_safe_integer (n : Z) :
  Z.abs n <= 2 ^ 53 -> to_String (JNum n) = pretty n.
Proof.
  intros H. cbn [to_String]. unfold Number_toString.
  by rewrite (proj2 (Z.leb_le _ _) H).
Qed.
Example trim_key : trim "  abc d
 " = "abc d".
Proof. reflexivity. Qed.

Example opened_has_asha :
  otpSessions Scenario.opened !! JStr "sess-1" = Some Scenario.asha.
Proof. vm_compute. reflexivity. Qed.

(* ===================================================================== *)
(** ** Properties of the phone formatters                                  *)
(* ===================================================================== *)

Section Formatting.

Lemma strip_all_digits (s : string) :
  all_digits s = true -> strip_non_digits s = s.
Proof.
  induction s as [|c r IH]; simpl; [reflexivity|].
  intros [Hc Hr]%andb_prop. rewrite Hc. f_equal. exact (IH Hr).
Qed.

Lemma all_digits_strip (s : string) : all_digits (strip_non_digits s) = true.
Proof.
  induction s as [|c r IH]; simpl; [reflexivity|].
  destruct (is_digit c) eqn:Hc; simpl; [rewrite Hc|]; exact IH.
Qed.

Lemma strip_strip (s : string) :
  strip_non_digits (strip_non_digits s) = strip_non_digits s.
Proof. apply strip_all_digits, all_digits_strip. Qed.

Lemma all_digits_app (s t : string) :
  all_digits (s +:+ t) = all_digits s && all_digits t.
Proof.
  induction s as [|c r IH]; [reflexivity|].
  change (String c r +:+ t) with (String c (r +:+ t)). simpl.
  rewrite IH. apply andb_assoc.
Qed.

Lemma startsWith_cons (c a : ascii) (r p : string) :
  startsWith (String c r) (String a p)
  = if ascii_dec a c then startsWith r p else false.
Proof. reflexivity. Qed.

Lemma startsWith_app (p s : string) : startsWith (p +:+ s) p = true.
Proof.
  induction p as [|a p IH].
  - destruct s; reflexivity.
  - change (String a p +:+ s) with (String a (p +:+ s)).
    rewrite startsWith_cons. destruct (ascii_dec a a); [exact IH | congruence].
Qed.

Lemma all_digits_not_plus (s : string) :
  all_digits s = true -> startsWith s "+" = false.
Proof.
  destruct s as [|c r]; [reflexivity|].
  intros [Hc _]%andb_prop. rewrite startsWith_cons.
  destruct (ascii_dec "+" c) as [<-|]; [discriminate Hc | reflexivity].
Qed.

Lemma all_digits_no_plus (s : string) :
  all_digits s = true -> has_char "+" s = false.
Proof.
  induction s as [|c r IH]; [reflexivity|]. cbn [all_digits has_char].
  intros [Hc Hr]%andb_prop. rewrite (IH Hr), orb_false_r.
  destruct (Ascii.eqb_spec "+" c) as [<-|]; [discriminate Hc | reflexivity].
Qed.

(** The gateway form is made of digits only. *)
Lemma formatPhoneForAPI_digits (x : string) : all_digits (formatPhoneForAPI x) = true.
Proof.
  unfold formatPhoneForAPI.
  destruct (startsWith _ "91"); [apply all_digits_strip|].
  destruct (_ =? 10)%nat; [|apply all_digits_strip].
  rewrite all_digits_app, all_digits_strip. reflexivity.
Qed.

(** Re-applying the gateway formatter to its output changes nothing. *)
Lemma formatPhoneForAPI_idempotent (x : string) :
  formatPhoneForAPI (formatPhoneForAPI x) = formatPhoneForAPI x.
Proof.
  pose proof (formatPhoneForAPI_digits x) as Hd.
  unfold formatPhoneForAPI at 1. rewrite (strip_all_digits _ Hd).
  unfold formatPhoneForAPI in *.
  destruct (startsWith (strip_non_digits x) "91") eqn:Hp.
  - rewrite Hp. reflexivity.
  - destruct (String.length (strip_non_digits x) =? 10)%nat eqn:Hl.
    + rewrite startsWith_app. reflexivity.
    + rewrite Hp, Hl. reflexivity.
Qed.

(** Re-applying the storage formatter to its output changes nothing. *)
Lemma formatPhoneNumber_idempotent (x : string) :
  formatPhoneNumber (formatPhoneNumber x) = formatPhoneNumber x.
Proof.
  unfold formatPhoneNumber at 2.
  destruct (startsWith (strip_non_digits x) "91") eqn:Hp.
  - unfold formatPhoneNumber.
    change (strip_non_digits ("+" +:+ strip_non_digits x))
      with (strip_non_digits (strip_non_digits x)).
    rewrite strip_strip, Hp. reflexivity.
  - destruct (String.length (strip_non_digits x) =? 10)%nat eqn:Hl.
    + unfold formatPhoneNumber.
      change (strip_non_digits ("+91" +:+ strip_non_digits x))
        with ("91" +:+ strip_non_digits (strip_non_digits x)).
      rewrite strip_strip, startsWith_app, Hp, Hl. reflexivity.
    + destruct (startsWith x "+") eqn:Hplus.
      * unfold formatPhoneNumber. rewrite Hp, Hl, Hplus. reflexivity.
      * unfold formatPhoneNumber.
        change (strip_non_digits ("+" +:+ strip_non_digits x))
          with (strip_non_digits (strip_non_digits x)).
        rewrite strip_strip, Hp, Hl, (startsWith_app "+"), Hplus. reflexivity.
Qed.

(** On a string of digits the storage form is the gateway form behind a
    [+]. *)
Lemma formatPhoneNumber_plus_API (x : string) :
  all_digits x = true -> formatPhoneNumber x = "+" +:+ formatPhoneForAPI x.
Proof.
  intros Hx. unfold formatPhoneNumber, formatPhoneForAPI.
  rewrite (strip_all_digits _ Hx), (all_digits_not_plus _ Hx).
  destruct (startsWith x "91"); [reflexivity|].
  destruct (String.length x =? 10)%nat; reflexivity.
Qed.

End Formatting.

Section Running.

Lemma appends_only_run {A} (m : TwoFactorService.Svc A) :
  appends_only m -> forall log, m log = (gateway_reply m, log ++ gateway_urls m).
Proof.
  intros (r & urls & H) log. unfold gateway_reply, gateway_urls.
  rewrite (H log), (H []). reflexivity.
Qed.

Lemma appends_only_ret {A} (a : A) : appends_only (mret a).
Proof. exists (inl a), []. intros log. cbn. by rewrite app_nil_r. Qed.

Lemma appends_only_throw {A} (e : js_error) : appends_only (@throw _ A e).
Proof. exists (inr e), []. intros log. cbn. by rewrite app_nil_r. Qed.

Lemma appends_only_bind {A B} (m : TwoFactorService.Svc A) (f : A -> TwoFactorService.Svc B) :
  appends_only m -> (forall a, appends_only (f a)) -> appends_only (m ≫= f).
Proof.
  intros (r & urls & Hm) Hf. destruct r as [a|e].
  - destruct (Hf a) as (r' & urls' & Hfa). exists r', (urls ++ urls').
    intros log. unfold mbind, M_bind. rewrite Hm, Hfa. by rewrite app_assoc.
  - exists (inr e), urls. intros log. unfold mbind, M_bind. by rewrite Hm.
Qed.

Lemma appends_only_try_catch {A} (m : TwoFactorService.Svc A) h :
  appends_only m -> (forall e, appends_only (h e)) -> appends_only (try_catch m h).
Proof.
  intros (r & urls & Hm) Hh. destruct r as [a|e].
  - exists (inl a), urls. intros log. unfold try_catch. by rewrite Hm.
  - destruct (Hh e) as (r' & urls' & Hhe). exists r', (urls ++ urls').
    intros log. unfold try_catch. rewrite Hm, Hhe. by rewrite app_assoc.
Qed.

Lemma appends_only_getApiKey w : appends_only (TwoFactorService.getApiKey w).
Proof.
  unfold TwoFactorService.getApiKey.
  destruct (TWO_FACTOR_API_KEY w) as [raw|]; [|apply appends_only_throw].
  destruct (String.eqb raw ""); [apply appends_only_throw|].
  destruct (_ || _); [apply appends_only_throw | apply appends_only_ret].
Qed.

Lemma appends_only_axios_GET w url : appends_only (TwoFactorService.axios_GET w url).
Proof.
  unfold TwoFactorService.axios_GET.
  destruct (axios_get w url) as [st d|e].
  - by exists (inl (st, d)), [url].
  - by exists (inr e), [url].
Qed.

#[local] Hint Resolve appends_only_ret appends_only_throw appends_only_getApiKey
  appends_only_axios_GET : svc.

Ltac svc_step :=
  first
    [ apply appends_only_try_catch
    | apply appends_only_bind
    | progress eauto with svc
    | intros [? ?]
    | intros ?
    | match goal with |- appends_only (if ?b then _ else _) => destruct b end
    | match goal with |- appends_only (let '(_, _) := ?p in _) => destruct p end ].

Lemma appends_only_sendSMSOTP w p : appends_only (TwoFactorService.sendSMSOTP w p).
Proof. unfold TwoFactorService.sendSMSOTP. repeat svc_step. Qed.

Lemma appends_only_sendVoiceOTP w p : appends_only (TwoFactorService.sendVoiceOTP w p).
Proof. unfold TwoFactorService.sendVoiceOTP. repeat svc_step. Qed.

#[local] Hint Resolve appends_only_sendSMSOTP appends_only_sendVoiceOTP : svc.

Lemma appends_only_sendOTP w p : appends_only (TwoFactorService.sendOTP w p).
Proof. unfold TwoFactorService.sendOTP. repeat svc_step. Qed.

Lemma appends_only_verifyOTP w sid otp : appends_only (TwoFactorService.verifyOTP w sid otp).
Proof. unfold TwoFactorService.verifyOTP. repeat svc_step. Qed.

End Running.

Section VerifyRuns.
Variable w : world.

Lemma call_service_run {A} (m : TwoFactorService.Svc A) (st : server) :
  appends_only m ->
  call_service m st = (gateway_reply m, with_requests (requests st ++ gateway_urls m) st).
Proof.
  intros H. unfold call_service. rewrite (appends_only_run m H). reflexivity.
Qed.

Lemma verify_otp_reject (req : VerifyReq.t) (st : server) (session : Session.t) :
  let sid := VerifyReq.sessionId req in
  let otp := VerifyReq.otp req in
  truthy sid = true -> truthy otp = true ->
  otpSessions st !! sid = Some session ->
  Date_now w - Session.createdAt session <= ten_minutes ->
  Session.attempts session < 3 ->
  rejected w sid otp = true ->
  verify_otp w req st =
    (inl (refuse 400 (JStr ("Invalid OTP. "
                             +:+ pretty (3 - (Session.attempts session + 1))
                             +:+ " attempts remaining."))),
     with_otpSessions
       (insert sid (Session.set_attempts (Session.attempts session + 1) session))
       (with_requests
          (requests st ++ gateway_urls (TwoFactorService.verifyOTP w sid otp)) st)).
Proof.
  intros sid otp Hsid Hotp Hget Hlive Hatt Hrej.
  unfold verify_otp, try_catch, mbind, M_bind, gets, modify.
  fold sid otp. rewrite Hsid, Hotp. cbn [negb orb].
  rewrite Hget.
  replace (Session.createdAt session <? Date_now w - ten_minutes) with false
    by (symmetry; apply Z.ltb_ge; lia).
  replace (3 <=? Session.attempts session) with false
    by (symmetry; apply Z.leb_gt; lia).
  rewrite (call_service_run _ _ (appends_only_verifyOTP w sid otp)).
  unfold rejected in Hrej.
  destruct (gateway_reply (TwoFactorService.verifyOTP w sid otp)) as [r|e]; [|discriminate].
  rewrite Hrej. reflexivity.
Qed.

Lemma verify_otp_expired_run (req : VerifyReq.t) (st : server) (session : Session.t) :
  let sid := VerifyReq.sessionId req in
  truthy sid = true -> truthy (VerifyReq.otp req) = true ->
  otpSessions st !! sid = Some session ->
  ten_minutes < Date_now w - Session.createdAt session ->
  verify_otp w req st =
    (inl (refuse 400 (JStr "Session has expired. Please request a new OTP.")),
     with_otpSessions (delete sid) st).
Proof.
  intros sid Hsid Hotp Hget Hold.
  unfold verify_otp, try_catch, mbind, M_bind, gets, modify.
  fold sid. rewrite Hsid, Hotp. cbn [negb orb]. rewrite Hget.
  replace (Session.createdAt session <? Date_now w - ten_minutes) with true
    by (symmetry; apply Z.ltb_lt; lia).
  reflexivity.
Qed.

Lemma verify_otp_exhausted_run (req : VerifyReq.t) (st : server) (session : Session.t) :
  let sid := VerifyReq.sessionId req in
  truthy sid = true -> truthy (VerifyReq.otp req) = true ->
  otpSessions st !! sid = Some session ->
  Date_now w - Session.createdAt session <= ten_minutes ->
  3 <= Session.attempts session ->
  verify_otp w req st =
    (inl (refuse 400 (JStr "Maximum attempts exceeded. Please request a new OTP.")),
     with_otpSessions (delete sid) st).
Proof.
  intros sid Hsid Hotp Hget Hlive Hatt.
  unfold verify_otp, try_catch, mbind, M_bind, gets, modify.
  fold sid. rewrite Hsid, Hotp. cbn [negb orb]. rewrite Hget.
  replace (Session.createdAt session <? Date_now w - ten_minutes) with false
    by (symmetry; apply Z.ltb_ge; lia).
  replace (3 <=? Session.attempts session) with true
    by (symmetry; apply Z.leb_le; lia).
  reflexivity.
Qed.

Lemma upsert_user_run (name city : jsval) (session : Session.t) (st : server) :
  db_throws w UserFindOne = None -> db_throws w UserSave = None ->
  upsert_user w name city session st =
    match list_find (fun u => User.phoneNumber u = Session.phoneNumber session) (users st) with
    | None =>
        let user := created_user w name city session (next_oid st) in
        (inl (user, true, false), with_users (fun us => us ++ [user]) (bump_oid st))
    | Some (i, old) =>
        let user := updated_user w name city old in
        (inl (user, false, true), with_users (fun us => <[i := user]> us) st)
    end.
Proof.
  intros Hfind Hsave.
  unfold upsert_user, User_findOne, User_save_new, User_save_found, db_call,
    fresh_oid, mbind, M_bind, gets, modify.
  rewrite Hfind. cbn [mret M_ret].
  destruct (list_find _ (users st)) as [[i old]|]; rewrite Hsave; reflexivity.
Qed.

Lemma upsert_user_find_throws (name city : jsval) (session : Session.t) (st : server) e :
  db_throws w UserFindOne = Some e ->
  upsert_user w name city session st = (inr e, st).
Proof.
  intros Hfind.
  unfold upsert_user, User_findOne, db_call, mbind, M_bind. rewrite Hfind. reflexivity.
Qed.

Lemma verify_otp_accept_run (req : VerifyReq.t) (st : server) (session : Session.t) :
  let sid := VerifyReq.sessionId req in
  let otp := VerifyReq.otp req in
  let session' := Session.set_verified true session in
  truthy sid = true -> truthy otp = true ->
  otpSessions st !! sid = Some session ->
  Date_now w - Session.createdAt session <= ten_minutes ->
  Session.attempts session < 3 ->
  accepted w sid otp = true ->
  verify_otp w req st =
    after_upsert w req session'
      (upsert_user w (VerifyReq.name req) (VerifyReq.city req) session'
         (with_otpSessions (insert sid session')
            (with_requests
               (requests st ++ gateway_urls (TwoFactorService.verifyOTP w sid otp)) st))).
Proof.
  intros sid otp session' Hsid Hotp Hget Hlive Hatt Hacc.
  unfold verify_otp, try_catch. unfold mbind at 1, M_bind at 1, gets.
  fold sid otp. rewrite Hsid, Hotp. cbn [negb orb].
  rewrite Hget.
  replace (Session.createdAt session <? Date_now w - ten_minutes) with false
    by (symmetry; apply Z.ltb_ge; lia).
  replace (3 <=? Session.attempts session) with false
    by (symmetry; apply Z.leb_gt; lia).
  unfold mbind at 1, M_bind at 1.
  rewrite (call_service_run _ _ (appends_only_verifyOTP w sid otp)).
  unfold accepted in Hacc.
  destruct (gateway_reply (TwoFactorService.verifyOTP w sid otp)) as [r|e]; [|discriminate].
  rewrite Hacc. cbn [negb].
  unfold mbind at 1, M_bind at 1, modify. fold session'.
  unfold mbind at 1, M_bind at 1.
  destruct (upsert_user _ _ _ _ _) as [[[[user isNewUser] isReturningUser]|e] st2];
    [|reflexivity].
  unfold after_upsert, Lead_save, db_call, fresh_oid, sign, mbind, M_bind, modify.
  destruct (db_throws w LeadSave); [reflexivity|]. cbn [mret M_ret].
  destruct (generateToken w user); [|reflexivity].
  destruct (generateRefreshToken w user); reflexivity.
Qed.

End VerifyRuns.

Section SendRuns.
Variable w : world.
Import TwoFactorService.

Lemma getApiKey_pure (log : list string) :
  getApiKey w log = (gateway_reply (getApiKey w), log).
Proof.
  unfold gateway_reply, getApiKey.
  destruct (TWO_FACTOR_API_KEY w) as [raw|]; [|reflexivity].
  destruct (String.eqb raw ""); [reflexivity|].
  destruct (_ || _); reflexivity.
Qed.

Lemma sendSMSOTP_returns (api : string) :
  exists r, gateway_reply (sendSMSOTP w api) = inl r
            /\ gateway_urls (sendSMSOTP w api) = attempt_urls w sms_url api.
Proof.
  unfold gateway_reply at 1, gateway_urls, attempt_urls, sendSMSOTP, try_catch, mbind, M_bind.
  rewrite getApiKey_pure.
  destruct (gateway_reply (getApiKey w)) as [key|e]; [|eauto].
  unfold axios_GET. destruct (axios_get w _) as [st d|e']; [|eauto].
  destruct (strict_eq st (JStr "Success")); eauto.
Qed.

Lemma sendVoiceOTP_returns (api : string) :
  exists r, gateway_reply (sendVoiceOTP w api) = inl r
            /\ gateway_urls (sendVoiceOTP w api) = attempt_urls w voice_url api.
Proof.
  unfold gateway_reply at 1, gateway_urls, attempt_urls, sendVoiceOTP, try_catch, mbind, M_bind.
  rewrite getApiKey_pure.
  destruct (gateway_reply (getApiKey w)) as [key|e]; [|eauto].
  unfold axios_GET. destruct (axios_get w _) as [st d|e']; [|eauto].
  destruct (strict_eq st (JStr "Success")); eauto.
Qed.

Lemma includes_prefix (t s : string) : includes (t +:+ s) t = true.
Proof.
  destruct (t +:+ s) eqn:E; cbn [includes]; rewrite <- E;
    change (String.prefix t (t +:+ s)) with (startsWith (t +:+ s) t);
    rewrite startsWith_app; reflexivity.
Qed.

Lemma append_empty (s : string) : s +:+ EmptyString = s.
Proof.
  induction s as [|c s IH]; [reflexivity|].
  change (String c s +:+ EmptyString) with (String c (s +:+ EmptyString)).
  by rewrite IH.
Qed.

Lemma includes_self (s : string) : includes s s = true.
Proof. rewrite <- (append_empty s) at 1. apply includes_prefix. Qed.

Lemma includes_app_r (a s t : string) :
  includes s t = true -> includes (a +:+ s) t = true.
Proof.
  intros H. induction a as [|c a IH]; [exact H|].
  change (String c a +:+ s) with (String c (a +:+ s)). cbn [includes].
  rewrite IH. apply orb_true_r.
Qed.


Lemma sendOTP_returns (phoneNumber : jsval) :
  exists r, gateway_reply (sendOTP w phoneNumber) = inl r.
Proof.
  unfold gateway_reply, sendOTP, try_catch.
  match goal with |- context [match ?body with _ => _ end] => destruct body as [[r|e] log] end;
    cbn; eauto.
Qed.

Lemma send_otp_invalid (req : SendReq.t) (st : server) :
  negb (truthy (SendReq.phone req))
    || strict_neq (js_length (SendReq.phone req)) (JNum 10) = true ->
  send_otp w req st =
    (inl (refuse 400 (JStr "Please provide a valid 10-digit phone number")), st).
Proof. intros H. unfold send_otp, try_catch. rewrite H. reflexivity. Qed.

Lemma send_otp_run (req : SendReq.t) (st : server) (r : TwoFactorService.result) :
  truthy (SendReq.phone req) = true ->
  js_length (SendReq.phone req) = JNum 10 ->
  gateway_reply (sendOTP w (dialled req)) = inl r ->
  let st1 := with_requests (requests st ++ gateway_urls (sendOTP w (dialled req))) st in
  send_otp w req st =
    if success r
    then (inl {| status := 200; cookies := [];
                 json := Sent "OTP sent successfully to your mobile number" (sessionId r) |},
          with_otpSessions
            (fun m => sweep (Date_now w - ten_minutes)
                        (<[sessionId r := fresh_session w req r]> m)) st1)
    else (inl (refuse 500 (js_or (error r) (JStr "Failed to send OTP. Please try again."))),
          st1).
Proof.
  intros Ht Hl Hr st1.
  unfold send_otp, try_catch. rewrite Ht, Hl.
  replace (strict_neq (JNum 10) (JNum 10)) with false by reflexivity.
  cbn [negb orb].
  unfold mbind at 1, M_bind at 1.
  rewrite (call_service_run _ _ (appends_only_sendOTP w _)).
  fold (dialled req). rewrite Hr. fold st1.
  destruct (success r); reflexivity.
Qed.

Lemma sweep_lookup (t : Z) (m : gmap jsval Session.t) (k : jsval) (s : Session.t) :
  sweep t m !! k = Some s <-> m !! k = Some s /\ t <= Session.createdAt s.
Proof.
  unfold sweep. rewrite map_lookup_filter_Some. cbn. intuition lia.
Qed.

End SendRuns.

Section Properties.

(** Both handlers always answer: no exception leaves them. *)
Lemma send_otp_answers (w : world) (req : SendReq.t) (st : server) :
  exists resp st', send_otp w req st = (inl resp, st').
Proof.
  unfold send_otp, try_catch.
  match goal with
  | |- context [match ?body with _ => _ end] => destruct body as [[resp|e] st']
  end; cbn; eauto.
Qed.

Lemma verify_otp_answers (w : world) (req : VerifyReq.t) (st : server) :
  exists resp st', verify_otp w req st = (inl resp, st').
Proof.
  unfold verify_otp, try_catch.
  match goal with
  | |- context [match ?body with _ => _ end] => destruct body as [[resp|e] st']
  end; cbn; eauto.
Qed.

Lemma live_call_elim sid createdAt c :
  live_call sid createdAt c = true ->
  VerifyReq.sessionId c.2 = sid /\ truthy (VerifyReq.otp c.2) = true
  /\ Date_now c.1 - createdAt <= ten_minutes.
Proof.
  unfold live_call. intros [[H1 H2]%andb_prop H3]%andb_prop.
  apply bool_decide_eq_true in H1. apply Z.leb_le in H3. auto.
Qed.

Lemma wrong_code_step sid c st session :
  truthy sid = true ->
  otpSessions st !! sid = Some session ->
  Session.attempts session < 3 ->
  wrong_code_call sid (Session.createdAt session) c = true ->
  exists st',
    verify_otp c.1 c.2 st =
      (inl (refuse 400 (JStr ("Invalid OTP. "
                               +:+ pretty (3 - (Session.attempts session + 1))
                               +:+ " attempts remaining."))), st')
    /\ otpSessions st' =
         <[sid := Session.set_attempts (Session.attempts session + 1) session]>
           (otpSessions st).
Proof.
  intros Hsid Hget Hatt [Hlive Hrej]%andb_prop.
  apply live_call_elim in Hlive as (Heq & Hotp & Hlive). subst sid.
  eexists. split; [apply verify_otp_reject; eassumption|]. reflexivity.
Qed.

(** C1 (amended): each wrong-code verify call against a live session adds
    one to its attempt counter and answers "Invalid OTP. N attempts
    remaining." with N = 3 minus the new counter; after three such calls
    the session is still stored, with three attempts, and the third answer
    is the one with N = 0.  The deletion and "Maximum attempts exceeded"
    come with the next verify call. *)
Theorem three_wrong_codes_then_exceeded
    (sid : jsval) (c1 c2 c3 c4 : world * VerifyReq.t) (st : server) (session : Session.t) :
  truthy sid = true ->
  otpSessions st !! sid = Some session ->
  Session.attempts session = 0 ->
  wrong_code_call sid (Session.createdAt session) c1 = true ->
  wrong_code_call sid (Session.createdAt session) c2 = true ->
  wrong_code_call sid (Session.createdAt session) c3 = true ->
  live_call sid (Session.createdAt session) c4 = true ->
  exists st1 st2 st3 st4,
    verify_otp c1.1 c1.2 st
      = (inl (refuse 400 (JStr "Invalid OTP. 2 attempts remaining.")), st1)
    /\ otpSessions st1 !! sid = Some (Session.set_attempts 1 session)
    /\ verify_otp c2.1 c2.2 st1
      = (inl (refuse 400 (JStr "Invalid OTP. 1 attempts remaining.")), st2)
    /\ otpSessions st2 !! sid = Some (Session.set_attempts 2 session)
    /\ verify_otp c3.1 c3.2 st2
      = (inl (refuse 400 (JStr "Invalid OTP. 0 attempts remaining.")), st3)
    /\ otpSessions st3 !! sid = Some (Session.set_attempts 3 session)
    /\ verify_otp c4.1 c4.2 st3
      = (inl (refuse 400 (JStr "Maximum attempts exceeded. Please request a new OTP.")), st4)
    /\ otpSessions st4 !! sid = None.
Proof.
  intros Hsid Hget H0 Hc1 Hc2 Hc3 Hc4.
  destruct (wrong_code_step sid c1 st session Hsid Hget ltac:(lia) Hc1) as (st1 & R1 & S1).
  rewrite H0 in R1, S1.
  assert (G1 : otpSessions st1 !! sid = Some (Session.set_attempts 1 session))
    by (rewrite S1; apply lookup_insert_eq).
  destruct (wrong_code_step sid c2 st1 _ Hsid G1 ltac:(cbn; lia) Hc2) as (st2 & R2 & S2).
  assert (G2 : otpSessions st2 !! sid = Some (Session.set_attempts 2 session))
    by (rewrite S2; apply lookup_insert_eq).
  destruct (wrong_code_step sid c3 st2 _ Hsid G2 ltac:(cbn; lia) Hc3) as (st3 & R3 & S3).
  assert (G3 : otpSessions st3 !! sid = Some (Session.set_attempts 3 session))
    by (rewrite S3; apply lookup_insert_eq).
  apply live_call_elim in Hc4 as (Heq & Hotp & Hlive).
  exists st1, st2, st3, (with_otpSessions (delete sid) st3).
  repeat split; try assumption.
  - subst sid. apply (verify_otp_exhausted_run c4.1 c4.2 st3 _ Hsid Hotp G3); cbn; lia.
  - cbn. apply lookup_delete_eq.
Qed.

(** C9: a rejected code against a live session with attempts left changes
    nothing in the store but that session's attempt counter, which goes up
    by one. *)
Theorem rejected_code_only_bumps_attempts
    (w : world) (req : VerifyReq.t) (st : server) (session : Session.t) :
  let sid := VerifyReq.sessionId req in
  truthy sid = true ->
  truthy (VerifyReq.otp req) = true ->
  otpSessions st !! sid = Some session ->
  Date_now w - Session.createdAt session <= ten_minutes ->
  Session.attempts session < 3 ->
  rejected w sid (VerifyReq.otp req) = true ->
  exists resp st' session',
    verify_otp w req st = (inl resp, st')
    /\ otpSessions st' !! sid = Some session'
    /\ Session.attempts session' = Session.attempts session + 1
    /\ Session.phoneNumber session' = Session.phoneNumber session
    /\ Session.phone session' = Session.phone session
    /\ Session.name session' = Session.name session
    /\ Session.city session' = Session.city session
    /\ Session.createdAt session' = Session.createdAt session
    /\ Session.verified session' = Session.verified session
    /\ Session.propertyId session' = Session.propertyId session
    /\ Session.propertyName session' = Session.propertyName session
    /\ Session.propertyUrl session' = Session.propertyUrl session
    /\ Session.otpType session' = Session.otpType session
    /\ (forall k, k <> sid -> otpSessions st' !! k = otpSessions st !! k)
    /\ dom (otpSessions st') = dom (otpSessions st).
Proof.
  intros sid Hsid Hotp Hget Hlive Hatt Hrej.
  do 2 eexists. exists (Session.set_attempts (Session.attempts session + 1) session).
  split; [apply verify_otp_reject; eassumption|].
  cbn. fold sid.
  split; [apply lookup_insert_eq|].
  repeat (split; [reflexivity|]).
  split.
  - intros k Hk. by apply lookup_insert_ne.
  - apply dom_insert_lookup_L. by exists session.
Qed.

(** C5 (amended): a verify call made more than ten minutes after the
    session was created deletes the session and answers "Session has
    expired", whatever the code, without asking the gateway. *)
Theorem verify_after_ten_minutes_expires
    (w : world) (req : VerifyReq.t) (st : server) (session : Session.t) :
  let sid := VerifyReq.sessionId req in
  truthy sid = true ->
  truthy (VerifyReq.otp req) = true ->
  otpSessions st !! sid = Some session ->
  ten_minutes < Date_now w - Session.createdAt session ->
  exists st',
    verify_otp w req st
      = (inl (refuse 400 (JStr "Session has expired. Please request a new OTP.")), st')
    /\ otpSessions st' !! sid = None
    /\ requests st' = requests st.
Proof.
  intros sid Hsid Hotp Hget Hold.
  eexists. split; [apply (verify_otp_expired_run w req st session); assumption|].
  cbn. split; [apply lookup_delete_eq | reflexivity].
Qed.

(** The upsert leaves the session map alone, and it throws exactly when
    one of its two database calls does. *)
Lemma upsert_user_frame (w : world) (name city : jsval) (session : Session.t)
    (st : server) :
  otpSessions (upsert_user w name city session st).2 = otpSessions st
  /\ match (upsert_user w name city session st).1 with
     | inl _ => db_throws w UserFindOne = None /\ db_throws w UserSave = None
     | inr _ => db_throws w UserFindOne <> None \/ db_throws w UserSave <> None
     end.
Proof.
  unfold upsert_user, User_findOne, User_save_new, User_save_found, db_call,
    fresh_oid, mbind, M_bind, gets, modify.
  destruct (db_throws w UserFindOne) as [e|] eqn:Hfind; cbn.
  - split; [reflexivity | by left].
  - destruct (list_find _ (users st)) as [[i old]|];
      destruct (db_throws w UserSave) as [e|] eqn:Hsave; cbn;
      (split; [reflexivity | first [by right | by split]]).
Qed.

(** When the gateway accepts the code and one of the three database calls
    throws, the handler answers 500 and the session is still stored,
    marked verified. *)
Lemma db_throw_keeps_session
    (w : world) (req : VerifyReq.t) (st : server) (session : Session.t) (op : db_op) :
  let sid := VerifyReq.sessionId req in
  truthy sid = true ->
  truthy (VerifyReq.otp req) = true ->
  otpSessions st !! sid = Some session ->
  Date_now w - Session.createdAt session <= ten_minutes ->
  Session.attempts session < 3 ->
  accepted w sid (VerifyReq.otp req) = true ->
  db_throws w op <> None ->
  exists st',
    verify_otp w req st = (inl verify_failed, st')
    /\ otpSessions st' !! sid = Some (Session.set_verified true session).
Proof.
  intros sid Hsid Hotp Hget Hlive Hatt Hacc Hop.
  rewrite (verify_otp_accept_run w req st session Hsid Hotp Hget Hlive Hatt Hacc).
  fold sid.
  set (st1 := with_otpSessions _ _).
  destruct (upsert_user_frame w (VerifyReq.name req) (VerifyReq.city req)
              (Session.set_verified true session) st1) as [Hframe Hcase].
  destruct (upsert_user w _ _ _ st1) as [[[[user isNewUser] isReturningUser]|e] st2];
    cbn [fst snd] in Hframe, Hcase; unfold after_upsert.
  - destruct Hcase as [Hfind Hsave].
    destruct (db_throws w LeadSave) as [e|] eqn:Hlead.
    + eexists. split; [reflexivity|]. cbn. rewrite Hframe. cbn. apply lookup_insert_eq.
    + destruct op; congruence.
  - eexists. split; [reflexivity|]. rewrite Hframe. cbn. apply lookup_insert_eq.
Qed.


(** C7 (amended): the user upsert of a fully successful verification.
    With no user stored under the session's phone number, one user is
    appended: named by the verify request, else by the send request, else
    "User"; with the verify request's city, else "Delhi"; no email;
    [lastLogin] now; the response says [isNew].  With a user stored, that
    one document is rewritten: the name changes exactly to a supplied
    non-blank name other than "User" that differs from the stored one, the
    city exactly to a supplied non-blank city that differs, [lastLogin]
    becomes now; the response says [isReturning]. *)
Theorem verified_user_upsert
    (w : world) (req : VerifyReq.t) (st : server) (session : Session.t) :
  let sid := VerifyReq.sessionId req in
  let name := VerifyReq.name req in
  let city := VerifyReq.city req in
  truthy sid = true ->
  truthy (VerifyReq.otp req) = true ->
  otpSessions st !! sid = Some session ->
  Date_now w - Session.createdAt session <= ten_minutes ->
  Session.attempts session < 3 ->
  accepted w sid (VerifyReq.otp req) = true ->
  (forall op, db_throws w op = None) ->
  (forall u, exists token, generateToken w u = inl token) ->
  (forall u, exists refreshToken, generateRefreshToken w u = inl refreshToken) ->
  exists resp st' msg user lead token refreshToken,
    verify_otp w req st = (inl resp, st')
    /\ status resp = 200
    /\ json resp = LoggedIn msg user lead token refreshToken
    /\ match list_find (fun u => User.phoneNumber u = Session.phoneNumber session)
               (users st) with
       | None =>
           exists new,
             users st' = users st ++ [new]
             /\ User.name new = js_or name (js_or (Session.name session) (JStr "User"))
             /\ User.city new = js_or city (JStr "Delhi")
             /\ User.email new = JNull
             /\ User.lastLogin new = Date_now w
             /\ User.phoneNumber new = Session.phoneNumber session
             /\ UserJson.isNew user = true /\ UserJson.isReturning user = false
       | Some (i, old) =>
           exists upd,
             users st' = <[i := upd]> (users st)
             /\ User.name upd =
                  (if truthy name && strict_neq name (JStr "User")
                      && strict_neq (User.name old) name
                   then name else User.name old)
             /\ User.city upd =
                  (if truthy city && strict_neq (User.city old) city
                   then city else User.city old)
             /\ User.email upd = User.email old
             /\ User.lastLogin upd = Date_now w
             /\ User.phoneNumber upd = User.phoneNumber old
             /\ UserJson.isNew user = false /\ UserJson.isReturning user = true
       end.
Proof.
  intros sid name city Hsid Hotp Hget Hlive Hatt Hacc Hdb Htok Hrtok.
  rewrite (verify_otp_accept_run w req st session Hsid Hotp Hget Hlive Hatt Hacc).
  rewrite (upsert_user_run w _ _ _ _ (Hdb UserFindOne) (Hdb UserSave)).
  fold sid name city. cbn [users with_otpSessions with_requests Session.phoneNumber
                           Session.set_verified].
  destruct (list_find _ (users st)) as [[i old]|];
    cbn zeta; unfold after_upsert; rewrite (Hdb LeadSave);
    match goal with
    | |- context [generateToken w ?u] =>
        destruct (Htok u) as [token ->], (Hrtok u) as [refreshToken ->]
    end.
  - do 7 eexists. do 3 (split; [reflexivity|]).
    exists (updated_user w name city old). cbn. repeat split; reflexivity.
  - do 7 eexists. do 3 (split; [reflexivity|]).
    exists (created_user w name city (Session.set_verified true session) (next_oid st)).
    cbn. repeat split; reflexivity.
Qed.

(** C8: a valid send request that the gateway accepts stores one session
    under the gateway's session id, with no attempts and not verified, and
    adds no other entry; one the gateway refuses leaves the store as it
    was. *)
Theorem send_otp_creates_one_session (w : world) (req : SendReq.t) (st : server) :
  truthy (SendReq.phone req) = true ->
  js_length (SendReq.phone req) = JNum 10 ->
  exists r resp st',
    gateway_reply (TwoFactorService.sendOTP w (dialled req)) = inl r
    /\ send_otp w req st = (inl resp, st')
    /\ if TwoFactorService.success r
       then
         let sid := TwoFactorService.sessionId r in
         exists s,
           otpSessions st' !! sid = Some s
           /\ Session.attempts s = 0
           /\ Session.verified s = false
           /\ Session.createdAt s = Date_now w
           /\ json resp = Sent "OTP sent successfully to your mobile number" sid
           /\ (forall k s0, k <> sid ->
                 otpSessions st' !! k = Some s0 -> otpSessions st !! k = Some s0)
       else otpSessions st' = otpSessions st /\ status resp = 500.
Proof.
  intros Ht Hl.
  destruct (sendOTP_returns w (dialled req)) as [r Hr]. exists r.
  rewrite (send_otp_run w req st r Ht Hl Hr).
  destruct (TwoFactorService.success r).
  - do 2 eexists. split; [exact Hr|]. split; [reflexivity|].
    exists (fresh_session w req r). cbn.
    split.
    { apply sweep_lookup. rewrite lookup_insert_eq. split; [reflexivity|].
      cbn. unfold ten_minutes. lia. }
    repeat (split; [reflexivity|]).
    intros k s0 Hk [Hin _]%sweep_lookup. by rewrite lookup_insert_ne in Hin.
  - do 2 eexists. split; [exact Hr|]. split; [reflexivity|]. split; reflexivity.
Qed.

(** C3 (amended): on ten digits the gateway form is the digits behind
    "91", unless they already begin with "91", and then it is the digits
    themselves; it holds no "+"; the storage form is the gateway form
    behind "+"; and each formatter maps its own output to itself. *)
Theorem format_ten_digits (d : string) :
  all_digits d = true ->
  String.length d = 10%nat ->
  formatPhoneForAPI d = (if startsWith d "91" then d else "91" +:+ d)
  /\ has_char "+" (formatPhoneForAPI d) = false
  /\ formatPhoneNumber d = "+" +:+ formatPhoneForAPI d
  /\ formatPhoneForAPI (formatPhoneForAPI d) = formatPhoneForAPI d
  /\ formatPhoneNumber (formatPhoneNumber d) = formatPhoneNumber d.
Proof.
  intros Hd Hl. split; [|split; [|split; [|split]]].
  - unfold formatPhoneForAPI. rewrite (strip_all_digits d Hd), Hl.
    destruct (startsWith d "91"); reflexivity.
  - apply all_digits_no_plus, formatPhoneForAPI_digits.
  - apply formatPhoneNumber_plus_API, Hd.
  - apply formatPhoneForAPI_idempotent.
  - apply formatPhoneNumber_idempotent.
Qed.

(** C10: on a string of decimal digits the storage form is "+" followed
    by the gateway form. *)
Theorem formatPhoneNumber_is_plus_formatPhoneForAPI (x : string) :
  all_digits x = true ->
  formatPhoneNumber x = String "+" (formatPhoneForAPI x).
Proof. intros Hx. exact (formatPhoneNumber_plus_API x Hx). Qed.

(** C4 (failing input): ten letters pass the phone check of [/send-otp];
    the gateway is asked to deliver to "91" and a session is stored. *)
Theorem send_otp_accepts_ten_letters :
  exists st',
    send_otp (Scenario.world_at 1000 Scenario.no_fault)
             (Scenario.send (JStr "abcdefghij") (JStr "Asha") JUndefined) Scenario.boot
      = (inl {| status := 200; cookies := [];
                json := Sent "OTP sent successfully to your mobile number"
                             (JStr "sess-1") |}, st')
    /\ requests st'
       = ["https://2factor.in/API/V1/0123456789abcdef/SMS/91/AUTOGEN/UrbanestaOTP"]
    /\ (Session.phone <$> otpSessions st' !! JStr "sess-1") = Some (JStr "abcdefghij")
    /\ all_digits "abcdefghij" = false.
Proof.
  eexists. split; [vm_compute; reflexivity|]. vm_compute. auto.
Qed.

End Properties.

(* ===================================================================== *)
(** ** Where the code departs from the specification                       *)
(* ===================================================================== *)

Section Departures.
Import Scenario.

(** C1: the third wrong code is answered "0 attempts remaining" and the
    session, with three attempts, is still in the store. *)
Lemma third_wrong_code_keeps_session :
  verify_otp (world_at 4000 no_fault) wrong two_wrong
    = (inl (refuse 400 (JStr "Invalid OTP. 0 attempts remaining.")), three_wrong)
  /\ refuse 400 (JStr "Invalid OTP. 0 attempts remaining.")
     <> refuse 400 (JStr "Maximum attempts exceeded. Please request a new OTP.")
  /\ otpSessions three_wrong !! JStr "sess-1" = Some (Session.set_attempts 3 asha).
Proof.
  split; [vm_compute; reflexivity|]. split; [discriminate|]. vm_compute. reflexivity.
Qed.


(** C3: ten digits that begin with "91" get no country code. *)
Lemma ten_digits_starting_91_not_prefixed :
  all_digits "9123456789" = true
  /\ String.length "9123456789" = 10%nat
  /\ formatPhoneForAPI "9123456789" = "9123456789"
  /\ formatPhoneForAPI "9123456789" <> "91" +:+ "9123456789"
  /\ formatPhoneNumber "9123456789" = "+9123456789".
Proof. repeat split; try reflexivity. discriminate. Qed.

(** C5: at exactly ten minutes the session is not expired: the gateway is
    asked, and the wrong code costs one attempt. *)
Lemma verify_at_exactly_ten_minutes :
  Date_now (world_at 601000 no_fault) - Session.createdAt asha = ten_minutes
  /\ (verify_otp (world_at 601000 no_fault) wrong opened).1
     = inl (refuse 400 (JStr "Invalid OTP. 2 attempts remaining."))
  /\ otpSessions (verify_otp (world_at 601000 no_fault) wrong opened).2 !! JStr "sess-1"
     = Some (Session.set_attempts 1 asha)
  /\ requests (verify_otp (world_at 601000 no_fault) wrong opened).2
     = requests opened
       ++ ["https://2factor.in/API/V1/0123456789abcdef/SMS/VERIFY/sess-1/000000"].
Proof. repeat split; vm_compute; reflexivity. Qed.

(** C7: the verify request carries neither name nor city, the send
    request carried "Asha" and "Mumbai".  The new user is ("Asha",
    "Delhi"): the name comes from the send request and is not the default,
    the city is the default and does not come from the send request. *)
Lemma new_user_named_from_session :
  VerifyReq.name right = JUndefined
  /\ VerifyReq.city right = JUndefined
  /\ Session.name asha = JStr "Asha"
  /\ Session.city asha = JStr "Mumbai"
  /\ users opened = []
  /\ ((fun u => (User.name u, User.city u))
        <$> users (verify_otp (world_at 2000 no_fault) right opened).2)
     = [(JStr "Asha", JStr "Delhi")]
  /\ (JStr "Asha", JStr "Delhi") <> (JStr "User", JStr "Delhi")
  /\ (JStr "Asha", JStr "Delhi") <> (JStr "Asha", JStr "Mumbai").
Proof. repeat split; try (vm_compute; reflexivity); discriminate. Qed.

End Departures.

(* ===================================================================== *)
(** ** The theorems at work on the concrete deployment                     *)
(* ===================================================================== *)

Section Instances.
Import Scenario.

(** C1 on the scenario: three wrong codes at 2, 3 and 4 seconds, then the
    right one. *)
Lemma three_wrong_codes_then_exceeded_witness :
  truthy (JStr "sess-1") = true
  /\ otpSessions opened !! JStr "sess-1" = Some asha
  /\ Session.attempts asha = 0
  /\ wrong_code_call (JStr "sess-1") 1000 (call 2000 wrong) = true
  /\ wrong_code_call (JStr "sess-1") 1000 (call 3000 wrong) = true
  /\ wrong_code_call (JStr "sess-1") 1000 (call 4000 wrong) = true
  /\ live_call (JStr "sess-1") 1000 (call 5000 right) = true
  /\ exists st1 st2 st3 st4,
       verify_otp (world_at 2000 no_fault) wrong opened
         = (inl (refuse 400 (JStr "Invalid OTP. 2 attempts remaining.")), st1)
       /\ otpSessions st1 !! JStr "sess-1" = Some (Session.set_attempts 1 asha)
       /\ verify_otp (world_at 3000 no_fault) wrong st1
         = (inl (refuse 400 (JStr "Invalid OTP. 1 attempts remaining.")), st2)
       /\ otpSessions st2 !! JStr "sess-1" = Some (Session.set_attempts 2 asha)
       /\ verify_otp (world_at 4000 no_fault) wrong st2
         = (inl (refuse 400 (JStr "Invalid OTP. 0 attempts remaining.")), st3)
       /\ otpSessions st3 !! JStr "sess-1" = Some (Session.set_attempts 3 asha)
       /\ verify_otp (world_at 5000 no_fault) right st3
         = (inl (refuse 400 (JStr "Maximum attempts exceeded. Please request a new OTP.")),
            st4)
       /\ otpSessions st4 !! JStr "sess-1" = None.
Proof.
  do 7 (split; [vm_compute; reflexivity|]).
  apply (three_wrong_codes_then_exceeded (JStr "sess-1")
           (call 2000 wrong) (call 3000 wrong) (call 4000 wrong) (call 5000 right)
           opened asha); vm_compute; reflexivity.
Defined.

(** C9 on the scenario: one wrong code against the fresh session. *)
Lemma rejected_code_only_bumps_attempts_witness :
  truthy (VerifyReq.sessionId wrong) = true
  /\ truthy (VerifyReq.otp wrong) = true
  /\ otpSessions opened !! VerifyReq.sessionId wrong = Some asha
  /\ Date_now (world_at 2000 no_fault) - Session.createdAt asha <= ten_minutes
  /\ Session.attempts asha < 3
  /\ rejected (world_at 2000 no_fault) (VerifyReq.sessionId wrong) (VerifyReq.otp wrong) = true
  /\ exists resp st' session',
       verify_otp (world_at 2000 no_fault) wrong opened = (inl resp, st')
       /\ otpSessions st' !! VerifyReq.sessionId wrong = Some session'
       /\ Session.attempts session' = Session.attempts asha + 1
       /\ (forall k, k <> VerifyReq.sessionId wrong ->
             otpSessions st' !! k = otpSessions opened !! k).
Proof.
  assert (H1 : truthy (VerifyReq.sessionId wrong) = true) by reflexivity.
  assert (H2 : truthy (VerifyReq.otp wrong) = true) by reflexivity.
  assert (H3 : otpSessions opened !! VerifyReq.sessionId wrong = Some asha)
    by (vm_compute; reflexivity).
  assert (H4 : Date_now (world_at 2000 no_fault) - Session.createdAt asha <= ten_minutes)
    by (vm_compute; discriminate).
  assert (H5 : Session.attempts asha < 3) by (vm_compute; reflexivity).
  assert (H6 : rejected (world_at 2000 no_fault) (VerifyReq.sessionId wrong)
                 (VerifyReq.otp wrong) = true) by (vm_compute; reflexivity).
  do 6 (split; [assumption|]).
  destruct (rejected_code_only_bumps_attempts (world_at 2000 no_fault) wrong opened asha
              H1 H2 H3 H4 H5 H6)
    as (resp & st' & session' & Hrun & Hget & Hatt & _ & _ & _ & _ & _ & _ & _ & _ & _ & _
        & Hothers & _).
  exists resp, st', session'. auto.
Defined.

(** C5 on the scenario: the right code, one millisecond too late. *)
Lemma verify_after_ten_minutes_expires_witness :
  truthy (VerifyReq.sessionId right) = true
  /\ truthy (VerifyReq.otp right) = true
  /\ otpSessions opened !! VerifyReq.sessionId right = Some asha
  /\ ten_minutes < Date_now (world_at 601001 no_fault) - Session.createdAt asha
  /\ exists st',
       verify_otp (world_at 601001 no_fault) right opened
         = (inl (refuse 400 (JStr "Session has expired. Please request a new OTP.")), st')
       /\ otpSessions st' !! VerifyReq.sessionId right = None
       /\ requests st' = requests opened.
Proof.
  assert (H1 : truthy (VerifyReq.sessionId right) = true) by reflexivity.
  assert (H2 : truthy (VerifyReq.otp right) = true) by reflexivity.
  assert (H3 : otpSessions opened !! VerifyReq.sessionId right = Some asha)
    by (vm_compute; reflexivity).
  assert (H4 : ten_minutes < Date_now (world_at 601001 no_fault) - Session.createdAt asha)
    by (vm_compute; reflexivity).
  do 4 (split; [assumption|]).
  exact (verify_after_ten_minutes_expires (world_at 601001 no_fault) right opened asha
           H1 H2 H3 H4).
Defined.


(** C7 on the scenario: the first login of a number creates its user. *)
Lemma verified_user_upsert_witness :
  truthy (VerifyReq.sessionId right) = true
  /\ truthy (VerifyReq.otp right) = true
  /\ otpSessions opened !! VerifyReq.sessionId right = Some asha
  /\ Date_now (world_at 2000 no_fault) - Session.createdAt asha <= ten_minutes
  /\ Session.attempts asha < 3
  /\ accepted (world_at 2000 no_fault) (VerifyReq.sessionId right) (VerifyReq.otp right) = true
  /\ (forall op, db_throws (world_at 2000 no_fault) op = None)
  /\ (forall u, exists token, generateToken (world_at 2000 no_fault) u = inl token)
  /\ (forall u, exists token, generateRefreshToken (world_at 2000 no_fault) u = inl token)
  /\ exists resp st' msg user lead token refreshToken new,
       verify_otp (world_at 2000 no_fault) right opened = (inl resp, st')
       /\ json resp = LoggedIn msg user lead token refreshToken
       /\ users st' = users opened ++ [new]
       /\ User.name new = JStr "Asha"
       /\ User.city new = JStr "Delhi"
       /\ UserJson.isNew user = true /\ UserJson.isReturning user = false.
Proof.
  assert (H1 : truthy (VerifyReq.sessionId right) = true) by reflexivity.
  assert (H2 : truthy (VerifyReq.otp right) = true) by reflexivity.
  assert (H3 : otpSessions opened !! VerifyReq.sessionId right = Some asha)
    by (vm_compute; reflexivity).
  assert (H4 : Date_now (world_at 2000 no_fault) - Session.createdAt asha <= ten_minutes)
    by (vm_compute; discriminate).
  assert (H5 : Session.attempts asha < 3) by (vm_compute; reflexivity).
  assert (H6 : accepted (world_at 2000 no_fault) (VerifyReq.sessionId right)
                 (VerifyReq.otp right) = true) by (vm_compute; reflexivity).
  assert (H7 : forall op, db_throws (world_at 2000 no_fault) op = None)
    by (intros op; reflexivity).
  assert (H8 : forall u, exists token, generateToken (world_at 2000 no_fault) u = inl token)
    by (intros u; exists "access.jwt"; reflexivity).
  assert (H9 : forall u, exists token,
               generateRefreshToken (world_at 2000 no_fault) u = inl token)
    by (intros u; exists "refresh.jwt"; reflexivity).
  do 9 (split; [assumption|]).
  destruct (verified_user_upsert (world_at 2000 no_fault) right opened asha
              H1 H2 H3 H4 H5 H6 H7 H8 H9)
    as (resp & st' & msg & user & lead & token & refreshToken
        & Hrun & _ & Hjson & Hcase).
  change (list_find (fun u => User.phoneNumber u = Session.phoneNumber asha) (users opened))
    with (@None (nat * User.t)) in Hcase.
  destruct Hcase as (new & Husers & Hname & Hcity & _ & _ & _ & Hnew & Hret).
  exists resp, st', msg, user, lead, token, refreshToken, new. auto 10.
Defined.

(** C8 on the scenario: the send that opens the session. *)
Lemma send_otp_creates_one_session_witness :
  truthy (SendReq.phone (send (JStr "9876543210") (JStr "Asha") (JStr "Mumbai"))) = true
  /\ js_length (SendReq.phone (send (JStr "9876543210") (JStr "Asha") (JStr "Mumbai"))) = JNum 10
  /\ exists r resp st' s,
       gateway_reply (TwoFactorService.sendOTP (world_at 1000 no_fault)
                        (dialled (send (JStr "9876543210") (JStr "Asha") (JStr "Mumbai")))) = inl r
       /\ TwoFactorService.success r = true
       /\ TwoFactorService.sessionId r = JStr "sess-1"
       /\ send_otp (world_at 1000 no_fault) (send (JStr "9876543210") (JStr "Asha") (JStr "Mumbai")) boot
          = (inl resp, st')
       /\ otpSessions st' !! JStr "sess-1" = Some s
       /\ Session.attempts s = 0 /\ Session.verified s = false.
Proof.
  assert (H1 : truthy (SendReq.phone (send (JStr "9876543210") (JStr "Asha") (JStr "Mumbai"))) = true)
    by reflexivity.
  assert (H2 : js_length (SendReq.phone (send (JStr "9876543210") (JStr "Asha") (JStr "Mumbai"))) = JNum 10)
    by reflexivity.
  do 2 (split; [assumption|]).
  destruct (send_otp_creates_one_session (world_at 1000 no_fault)
              (send (JStr "9876543210") (JStr "Asha") (JStr "Mumbai")) boot H1 H2)
    as (r & resp & st' & Hr & Hrun & Hcase).
  pose proof Hr as Hr'. vm_compute in Hr'. injection Hr' as <-.
  cbn [TwoFactorService.success TwoFactorService.sessionId] in Hcase.
  destruct Hcase as (s & Hget & Hatt & Hver & _).
  eexists _, resp, st', s. split; [exact Hr|]. auto 10.
Defined.


(** C3 on a number that does not begin with 91. *)
Lemma format_ten_digits_witness :
  all_digits "9876543210" = true
  /\ String.length "9876543210" = 10%nat
  /\ formatPhoneForAPI "9876543210" = "919876543210"
  /\ has_char "+" (formatPhoneForAPI "9876543210") = false
  /\ formatPhoneNumber "9876543210" = "+919876543210"
  /\ formatPhoneForAPI "919876543210" = "919876543210"
  /\ formatPhoneNumber "+919876543210" = "+919876543210".
Proof.
  assert (H1 : all_digits "9876543210" = true) by reflexivity.
  assert (H2 : String.length "9876543210" = 10%nat) by reflexivity.
  do 2 (split; [assumption|]).
  exact (format_ten_digits "9876543210" H1 H2).
Defined.

(** C10 on a short foreign number. *)
Lemma formatPhoneNumber_is_plus_formatPhoneForAPI_witness :
  all_digits "4412345" = true
  /\ formatPhoneNumber "4412345" = String "+" (formatPhoneForAPI "4412345").
Proof.
  assert (H1 : all_digits "4412345" = true) by reflexivity.
  split; [assumption|].
  exact (formatPhoneNumber_is_plus_formatPhoneForAPI "4412345" H1).
Defined.

End Instances.

(* ===================================================================== *)
(** ** Further properties of the gateway client                            *)
(* ===================================================================== *)

Section MoreFormatting.

Lemma strip_app (s t : string) :
  strip_non_digits (s +:+ t) = strip_non_digits s +:+ strip_non_digits t.
Proof.
  induction s as [|c r IH]; [reflexivity|].
  change (String c r +:+ t) with (String c (r +:+ t)). cbn [strip_non_digits].
  destruct (is_digit c); rewrite IH; reflexivity.
Qed.

(** X1: whatever the input, the gateway form holds decimal digits only. *)
Theorem formatPhoneForAPI_only_digits (x : string) :
  all_digits (formatPhoneForAPI x) = true
  /\ has_char "+" (formatPhoneForAPI x) = false
  /\ strip_non_digits (formatPhoneForAPI x) = formatPhoneForAPI x.
Proof.
  pose proof (formatPhoneForAPI_digits x) as H.
  split; [exact H|]. split; [by apply all_digits_no_plus | by apply strip_all_digits].
Qed.

(** X2: whatever the input, the storage form begins with "+". *)
Theorem formatPhoneNumber_starts_with_plus (x : string) :
  startsWith (formatPhoneNumber x) "+" = true.
Proof.
  unfold formatPhoneNumber.
  destruct (startsWith (strip_non_digits x) "91"); [apply (startsWith_app "+")|].
  destruct (_ =? 10)%nat; [apply (startsWith_app "+" ("91" +:+ _))|].
  destruct (startsWith x "+") eqn:H; [exact H | apply (startsWith_app "+")].
Qed.

(** X3: both formatters are idempotent on every string, and formatting a
    stored number for the gateway gives the number the raw input gives. *)
Theorem formatters_compose (x : string) :
  formatPhoneForAPI (formatPhoneForAPI x) = formatPhoneForAPI x
  /\ formatPhoneNumber (formatPhoneNumber x) = formatPhoneNumber x
  /\ formatPhoneForAPI (formatPhoneNumber x) = formatPhoneForAPI x
  /\ formatPhoneNumber (formatPhoneForAPI x) = "+" +:+ formatPhoneForAPI x.
Proof.
  split; [apply formatPhoneForAPI_idempotent|].
  split; [apply formatPhoneNumber_idempotent|].
  split.
  - unfold formatPhoneNumber.
    destruct (startsWith (strip_non_digits x) "91") eqn:Hp.
    + unfold formatPhoneForAPI.
      change (strip_non_digits ("+" +:+ strip_non_digits x))
        with (strip_non_digits (strip_non_digits x)).
      by rewrite strip_strip, Hp.
    + destruct (String.length (strip_non_digits x) =? 10)%nat eqn:Hl.
      * unfold formatPhoneForAPI.
        change (strip_non_digits ("+91" +:+ strip_non_digits x))
          with ("91" +:+ strip_non_digits (strip_non_digits x)).
        by rewrite strip_strip, startsWith_app, Hp, Hl.
      * destruct (startsWith x "+"); [reflexivity|].
        unfold formatPhoneForAPI.
        change (strip_non_digits ("+" +:+ strip_non_digits x))
          with (strip_non_digits (strip_non_digits x)).
        by rewrite strip_strip.
  - rewrite (formatPhoneNumber_plus_API _ (formatPhoneForAPI_digits x)).
    by rewrite formatPhoneForAPI_idempotent.
Qed.

(** A number that already carries "+91" is only stripped of what is not
    a digit. *)
Lemma formatters_on_plus91 (p : string) :
  formatPhoneForAPI ("+91" +:+ p) = "91" +:+ strip_non_digits p
  /\ formatPhoneNumber ("+91" +:+ p) = "+91" +:+ strip_non_digits p.
Proof.
  unfold formatPhoneForAPI, formatPhoneNumber.
  change (strip_non_digits ("+91" +:+ p)) with ("91" +:+ strip_non_digits p).
  rewrite startsWith_app. split; reflexivity.
Qed.

End MoreFormatting.

Section ApiKey.
Import TwoFactorService.

Lemma trim_end_cons (c : ascii) (r : string) :
  trim_end (String c r)
  = match trim_end r with
    | EmptyString => if is_js_space c then EmptyString else String c EmptyString
    | r' => String c r'
    end.
Proof. reflexivity. Qed.

Lemma trim_end_trim_end (s : string) : trim_end (trim_end s) = trim_end s.
Proof.
  induction s as [|c r IH]; [reflexivity|]. rewrite trim_end_cons.
  destruct (trim_end r) as [|d r'] eqn:Hr.
  - destruct (is_js_space c) eqn:Hc; [reflexivity|].
    rewrite trim_end_cons. cbn [trim_end]. by rewrite Hc.
  - rewrite trim_end_cons, IH. reflexivity.
Qed.

Lemma starts_clean_trim_start (s : string) : starts_clean (trim_start s) = true.
Proof.
  induction s as [|c r IH]; [reflexivity|]. cbn [trim_start].
  destruct (is_js_space c) eqn:Hc; [exact IH|]. cbn. by rewrite Hc.
Qed.

Lemma trim_start_clean (s : string) : starts_clean s = true -> trim_start s = s.
Proof.
  destruct s as [|c r]; [reflexivity|]. cbn. intros ->%negb_true_iff. reflexivity.
Qed.

Lemma starts_clean_trim_end (s : string) :
  starts_clean s = true -> starts_clean (trim_end s) = true.
Proof.
  destruct s as [|c r]; [reflexivity|]. rewrite trim_end_cons. cbn [starts_clean].
  intros Hc. destruct (trim_end r); [|exact Hc].
  apply negb_true_iff in Hc. rewrite Hc. cbn. by rewrite Hc.
Qed.

Lemma ends_clean_trim_end (s : string) : ends_clean (trim_end s) = true.
Proof.
  induction s as [|c r IH]; [reflexivity|]. rewrite trim_end_cons.
  destruct (trim_end r) as [|d r'] eqn:Hr.
  - destruct (is_js_space c) eqn:Hc; [reflexivity|]. cbn. by rewrite Hc.
  - exact IH.
Qed.

Lemma trim_trim (s : string) : trim (trim s) = trim s.
Proof.
  unfold trim.
  rewrite (trim_start_clean (trim_end (trim_start s))).
  - apply trim_end_trim_end.
  - apply starts_clean_trim_end, starts_clean_trim_start.
Qed.

(** X4: a key that [getApiKey] returns is the environment variable
    without its surrounding white space, and has at least ten
    characters. *)
Theorem getApiKey_returns_trimmed_key (w : world) (apiKey : string) :
  gateway_reply (getApiKey w) = inl apiKey ->
  exists raw,
    TWO_FACTOR_API_KEY w = Some raw
    /\ apiKey = trim raw
    /\ trim apiKey = apiKey
    /\ starts_clean apiKey = true
    /\ ends_clean apiKey = true
    /\ (10 <= String.length apiKey)%nat.
Proof.
  unfold gateway_reply, getApiKey.
  destruct (TWO_FACTOR_API_KEY w) as [raw|]; [|discriminate].
  destruct (String.eqb raw ""); [discriminate|].
  destruct (String.eqb (trim raw) "" || (String.length (trim raw) <? 10)%nat) eqn:Hbad;
    [discriminate|].
  cbn. intros [= <-]. exists raw.
  apply orb_false_elim in Hbad as [_ Hlen%Nat.ltb_ge].
  split; [reflexivity|]. split; [reflexivity|]. split; [apply trim_trim|].
  split; [apply starts_clean_trim_end, starts_clean_trim_start|].
  split; [apply ends_clean_trim_end | exact Hlen].
Qed.

End ApiKey.

Section MoreService.
Variable w : world.
Import TwoFactorService.

(** One delivery attempt, by what the key and the gateway do. *)
Lemma sendSMSOTP_run (api : string) (log : list string) :
  sendSMSOTP w api log =
    match gateway_reply (getApiKey w) with
    | inr e =>
        (inl (failed (js_or (Exn.response_data_Details e)
                            (js_or (Exn.message e) (JStr "SMS API error")))), log)
    | inl apiKey =>
        match axios_get w (sms_url apiKey api) with
        | Resolved Status Details =>
            (inl (if strict_eq Status (JStr "Success") then succeeded Details
                  else failed (js_or Details (JStr "SMS delivery failed"))),
             log ++ [sms_url apiKey api])
        | Rejected e =>
            (inl (failed (js_or (Exn.response_data_Details e)
                                (js_or (Exn.message e) (JStr "SMS API error")))),
             log ++ [sms_url apiKey api])
        end
    end.
Proof.
  unfold sendSMSOTP, try_catch, mbind, M_bind. rewrite getApiKey_pure.
  destruct (gateway_reply (getApiKey w)) as [key|e]; [|reflexivity].
  unfold axios_GET. destruct (axios_get w _) as [st d|e]; [|reflexivity].
  destruct (strict_eq st (JStr "Success")); reflexivity.
Qed.

Lemma sendVoiceOTP_run (api : string) (log : list string) :
  sendVoiceOTP w api log =
    match gateway_reply (getApiKey w) with
    | inr e =>
        (inl (failed (js_or (Exn.response_data_Details e)
                            (js_or (Exn.message e) (JStr "Voice API error")))), log)
    | inl apiKey =>
        match axios_get w (voice_url apiKey api) with
        | Resolved Status Details =>
            (inl (if strict_eq Status (JStr "Success") then succeeded Details
                  else failed (js_or Details (JStr "Voice delivery failed"))),
             log ++ [voice_url apiKey api])
        | Rejected e =>
            (inl (failed (js_or (Exn.response_data_Details e)
                                (js_or (Exn.message e) (JStr "Voice API error")))),
             log ++ [voice_url apiKey api])
        end
    end.
Proof.
  unfold sendVoiceOTP, try_catch, mbind, M_bind. rewrite getApiKey_pure.
  destruct (gateway_reply (getApiKey w)) as [key|e]; [|reflexivity].
  unfold axios_GET. destruct (axios_get w _) as [st d|e]; [|reflexivity].
  destruct (strict_eq st (JStr "Success")); reflexivity.
Qed.

Lemma verifyOTP_run (sid otp : jsval) (log : list string) :
  verifyOTP w sid otp log =
    if negb (nonempty_string sid)
    then (inl (failed (JStr "Session ID is required and must be a string")), log)
    else if negb (nonempty_string otp)
    then (inl (failed (JStr "OTP is required and must be a string")), log)
    else
      match gateway_reply (getApiKey w) with
      | inr e =>
          (inl (failed (js_or (Exn.response_data_Details e)
                              (js_or (Exn.message e) (JStr "Failed to verify OTP")))), log)
      | inl apiKey =>
          let url := verify_url apiKey (to_String sid) (to_String otp) in
          match axios_get w url with
          | Resolved Status Details =>
              (inl (if strict_eq Status (JStr "Success")
                    then {| success := true; sessionId := JUndefined;
                            message := JStr "OTP verified successfully";
                            type := JUndefined; dbFormattedPhone := JUndefined;
                            fallback := JUndefined; error := JUndefined |}
                    else failed (js_or Details (JStr "Invalid OTP"))),
               log ++ [url])
          | Rejected e =>
              (inl (failed (js_or (Exn.response_data_Details e)
                                  (js_or (Exn.message e) (JStr "Failed to verify OTP")))),
               log ++ [url])
          end
      end.
Proof.
  unfold verifyOTP, try_catch, nonempty_string.
  destruct (truthy sid), (is_string sid); cbn [negb orb andb]; try reflexivity.
  destruct (truthy otp), (is_string otp); cbn [negb orb andb]; try reflexivity.
  unfold mbind, M_bind. rewrite getApiKey_pure.
  destruct (gateway_reply (getApiKey w)) as [key|e]; [|reflexivity].
  unfold axios_GET. cbn zeta. destruct (axios_get w _) as [st d|e]; [|reflexivity].
  destruct (strict_eq st (JStr "Success")); reflexivity.
Qed.

Lemma strict_eq_true (a b : jsval) : strict_eq a b = true <-> a = b.
Proof. unfold strict_eq. apply bool_decide_eq_true. Qed.

(** X5: [verifyOTP] accepts a code exactly when session id and code are
    non-empty strings, a key is configured and the gateway answers the
    verify request with status "Success". *)
Theorem verifyOTP_accepts_iff (sid otp : jsval) :
  accepted w sid otp = true
  <-> nonempty_string sid = true
      /\ nonempty_string otp = true
      /\ exists apiKey Details,
           gateway_reply (getApiKey w) = inl apiKey
           /\ axios_get w (verify_url apiKey (to_String sid) (to_String otp))
              = Resolved (JStr "Success") Details.
Proof.
  unfold accepted, gateway_reply. rewrite verifyOTP_run.
  destruct (nonempty_string sid); cbn [negb fst];
    [|cbn; split; [discriminate | intros [H _]; discriminate H]].
  destruct (nonempty_string otp); cbn [negb fst];
    [|cbn; split; [discriminate | intros (_ & H & _); discriminate H]].
  fold (gateway_reply (getApiKey w)).
  destruct (gateway_reply (getApiKey w)) as [key|e]; cbn;
    [|split; [discriminate | intros (_ & _ & k & d & H & _); discriminate H]].
  destruct (axios_get w _) as [st d|e] eqn:Hget; cbn.
  - destruct (strict_eq st (JStr "Success")) eqn:Hst; cbn.
    + apply strict_eq_true in Hst as ->.
      split; [intros _; do 2 (split; [reflexivity|]); eauto | reflexivity].
    + split; [discriminate|]. intros (_ & _ & key' & d' & [= <-] & H).
      rewrite Hget in H. injection H as -> _.
      unfold strict_eq in Hst. by rewrite bool_decide_eq_true_2 in Hst.
  - split; [discriminate|]. intros (_ & _ & key' & d' & [= <-] & H).
    rewrite Hget in H. discriminate H.
Qed.

(** X6: [verifyOTP] never throws and never retries: it requests the
    verify URL once, and nothing at all when an argument is not a
    non-empty string or no key is configured; and what is not accepted is
    rejected. *)
Theorem verifyOTP_one_request (sid otp : jsval) (log : list string) :
  exists r,
    verifyOTP w sid otp log
      = (inl r,
         log ++ (if nonempty_string sid && nonempty_string otp
                 then match gateway_reply (getApiKey w) with
                      | inl apiKey =>
                          [verify_url apiKey (to_String sid) (to_String otp)]
                      | inr _ => []
                      end
                 else []))
    /\ rejected w sid otp = negb (accepted w sid otp)
    /\ accepted w sid otp = success r.
Proof.
  unfold rejected, accepted, gateway_reply. rewrite !verifyOTP_run.
  destruct (nonempty_string sid); cbn [negb andb fst];
    [|eexists; rewrite app_nil_r; eauto].
  destruct (nonempty_string otp); cbn [negb andb fst];
    [|eexists; rewrite app_nil_r; eauto].
  fold (gateway_reply (getApiKey w)).
  destruct (gateway_reply (getApiKey w)) as [key|e];
    [|eexists; rewrite app_nil_r; eauto].
  cbn zeta. destruct (axios_get w _) as [st d|e]; cbn [fst]; eauto.
Qed.

(** X7: [sendOTP] never throws and makes at most two requests.  It
    reports success only for a non-empty string number and only after the
    gateway answered its last request, the SMS or the voice one for the
    formatted number, with status "Success"; the session id is that
    answer's [Details], the type names the channel, and the storage form
    of the number comes back with it. *)
Theorem sendOTP_success_is_confirmed (phoneNumber : jsval) (log : list string) :
  exists r urls,
    sendOTP w phoneNumber log = (inl r, log ++ urls)
    /\ (length urls <= 2)%nat
    /\ (nonempty_string phoneNumber = false -> urls = [] /\ success r = false)
    /\ (success r = true ->
          let api := formatPhoneForAPI (to_String phoneNumber) in
          exists apiKey url,
            gateway_reply (getApiKey w) = inl apiKey
            /\ (url = sms_url apiKey api /\ type r = JStr "sms"
                \/ url = voice_url apiKey api /\ type r = JStr "voice")
            /\ last urls = Some url
            /\ axios_get w url = Resolved (JStr "Success") (sessionId r)
            /\ dbFormattedPhone r = JStr (formatPhoneNumber (to_String phoneNumber))).
Proof.
  unfold sendOTP, try_catch, nonempty_string.
  destruct (truthy phoneNumber) eqn:Ht, (is_string phoneNumber) eqn:Hs;
    cbn [negb orb andb];
    try (exists (failed (JStr "Phone number is required and must be a string")), [];
         cbn; rewrite app_nil_r; repeat split; try lia; discriminate).
  unfold mbind at 1, M_bind at 1. rewrite sendSMSOTP_run.
  destruct (gateway_reply (getApiKey w)) as [key|e] eqn:Hkey.
  - destruct (axios_get w (sms_url key _)) as [st d|e] eqn:Hsms.
    + destruct (strict_eq st (JStr "Success")) eqn:Hst.
      * apply strict_eq_true in Hst as ->. cbn [success succeeded].
        eexists _, [_]. split; [reflexivity|]. cbn.
        split; [lia|]. split; [discriminate|]. intros _.
        exists key, (sms_url key (formatPhoneForAPI (to_String phoneNumber))). eauto 10.
      * cbn [success failed]. unfold mbind at 1, M_bind at 1.
        rewrite sendVoiceOTP_run, Hkey.
        destruct (axios_get w (voice_url key _)) as [st' d'|e'] eqn:Hvoice.
        -- destruct (strict_eq st' (JStr "Success")) eqn:Hst'.
           ++ apply strict_eq_true in Hst' as ->. cbn [success succeeded].
              eexists _, [_; _]. split; [by rewrite <- app_assoc|]. cbn.
              split; [lia|]. split; [discriminate|]. intros _.
              exists key, (voice_url key (formatPhoneForAPI (to_String phoneNumber))).
              eauto 10.
           ++ cbn [success failed]. eexists _, [_; _].
              split; [by rewrite <- app_assoc|]. cbn.
              split; [lia|]. split; discriminate.
        -- cbn [success failed]. eexists _, [_; _].
           split; [by rewrite <- app_assoc|]. cbn.
           split; [lia|]. split; discriminate.
    + cbn [success failed]. unfold mbind at 1, M_bind at 1.
      rewrite sendVoiceOTP_run, Hkey.
      destruct (axios_get w (voice_url key _)) as [st' d'|e'] eqn:Hvoice.
      * destruct (strict_eq st' (JStr "Success")) eqn:Hst'.
        -- apply strict_eq_true in Hst' as ->. cbn [success succeeded].
           eexists _, [_; _]. split; [by rewrite <- app_assoc|]. cbn.
           split; [lia|]. split; [discriminate|]. intros _.
           exists key, (voice_url key (formatPhoneForAPI (to_String phoneNumber))).
           eauto 10.
        -- cbn [success failed]. eexists _, [_; _].
           split; [by rewrite <- app_assoc|]. cbn.
           split; [lia|]. split; discriminate.
      * cbn [success failed]. eexists _, [_; _].
        split; [by rewrite <- app_assoc|]. cbn.
        split; [lia|]. split; discriminate.
  - cbn [success failed]. unfold mbind at 1, M_bind at 1.
    rewrite sendVoiceOTP_run, Hkey. cbn [success failed].
    eexists _, []. split; [by rewrite app_nil_r|]. cbn.
    split; [lia|]. split; discriminate.
Qed.

(** X8: without a usable key the service talks to nobody: [sendOTP],
    [verifyOTP] and [getBalance] request nothing and report failure. *)
Theorem unusable_key_no_request (e : js_error) :
  gateway_reply (getApiKey w) = inr e ->
  (forall phoneNumber log,
     exists r, sendOTP w phoneNumber log = (inl r, log) /\ success r = false)
  /\ (forall sid otp log,
       exists r, verifyOTP w sid otp log = (inl r, log) /\ success r = false)
  /\ (forall log,
       exists r, getBalance w log = (inl r, log) /\ Balance.success r = false).
Proof.
  intros Hkey. split; [|split].
  - intros p log. unfold sendOTP, try_catch.
    destruct (negb (truthy p) || negb (is_string p)); [cbn; eauto|].
    unfold mbind at 1, M_bind at 1. rewrite sendSMSOTP_run, Hkey. cbn [success failed].
    unfold mbind at 1, M_bind at 1. rewrite sendVoiceOTP_run, Hkey. cbn. eauto.
  - intros sid otp log. rewrite verifyOTP_run, Hkey.
    destruct (negb (nonempty_string sid)); [eauto|].
    destruct (negb (nonempty_string otp)); eauto.
  - intros log. unfold getBalance, try_catch, mbind, M_bind.
    rewrite getApiKey_pure, Hkey. cbn. eauto.
Qed.

(** X9: [getBalance] never throws; it requests the balance URL once, or
    nothing without a key, and reports success, with the gateway's
    [Details] as the balance, exactly when the gateway answers with status
    "Success". *)
Theorem getBalance_reports_gateway_answer (log : list string) :
  exists r,
    getBalance w log
      = (inl r,
         log ++ match gateway_reply (getApiKey w) with
                | inl apiKey => [balance_url apiKey]
                | inr _ => []
                end)
    /\ (Balance.success r = true
        <-> exists apiKey,
              gateway_reply (getApiKey w) = inl apiKey
              /\ axios_get w (balance_url apiKey)
                 = Resolved (JStr "Success") (Balance.balance r)).
Proof.
  unfold getBalance, try_catch, mbind, M_bind. rewrite getApiKey_pure.
  destruct (gateway_reply (getApiKey w)) as [key|e].
  - unfold axios_GET. destruct (axios_get w (balance_url key)) as [st d|e] eqn:Hget.
    + destruct (strict_eq st (JStr "Success")) eqn:Hst.
      * apply strict_eq_true in Hst as ->. eexists. split; [reflexivity|]. cbn.
        split; [intros _; exists key; by rewrite Hget | reflexivity].
      * eexists. split; [reflexivity|]. cbn. split; [discriminate|].
        intros (key' & [= <-] & H). rewrite Hget in H. injection H as -> _.
        unfold strict_eq in Hst. by rewrite bool_decide_eq_true_2 in Hst.
    + eexists. split; [reflexivity|]. cbn. split; [discriminate|].
      intros (key' & [= <-] & H). rewrite Hget in H. discriminate H.
  - eexists. split; [cbn; by rewrite app_nil_r|]. cbn. split; [discriminate|].
    intros (key' & H & _). discriminate H.
Qed.

End MoreService.

(* ===================================================================== *)
(** ** Further properties of the router                                    *)
(* ===================================================================== *)

Section MoreVerify.
Variable w : world.

Lemma rejected_negb_accepted (sid otp : jsval) :
  rejected w sid otp = negb (accepted w sid otp).
Proof.
  unfold rejected, accepted, gateway_reply. rewrite verifyOTP_run.
  destruct (negb (nonempty_string sid)); [reflexivity|].
  destruct (negb (nonempty_string otp)); [reflexivity|].
  destruct (gateway_reply (TwoFactorService.getApiKey w)) as [key|e]; [|reflexivity].
  cbn zeta. destruct (axios_get w _); [|reflexivity].
  destruct (strict_eq _ _); reflexivity.
Qed.

Lemma verifyOTP_urls_short (sid otp : jsval) :
  (length (gateway_urls (TwoFactorService.verifyOTP w sid otp)) <= 1)%nat.
Proof.
  unfold gateway_urls, gateway_reply. rewrite verifyOTP_run.
  destruct (negb (nonempty_string sid)); [cbn; lia|].
  destruct (negb (nonempty_string otp)); [cbn; lia|].
  destruct (gateway_reply (TwoFactorService.getApiKey w)) as [key|e]; [|cbn; lia].
  cbn zeta. destruct (axios_get w _); cbn; lia.
Qed.

(** A verify call that names no stored session. *)
Lemma verify_otp_unreached (req : VerifyReq.t) (st : server) :
  truthy (VerifyReq.sessionId req) = false
  \/ truthy (VerifyReq.otp req) = false
  \/ otpSessions st !! VerifyReq.sessionId req = None ->
  exists msg, verify_otp w req st = (inl (refuse 400 (JStr msg)), st).
Proof.
  intros H. unfold verify_otp, try_catch, mbind, M_bind, gets.
  destruct (truthy (VerifyReq.sessionId req)) eqn:Hsid; [|cbn; eauto].
  destruct (truthy (VerifyReq.otp req)) eqn:Hotp; [|cbn; eauto].
  destruct H as [H|[H|H]]; [discriminate..|]. cbn [negb orb]. rewrite H. eauto.
Qed.

(** The user upsert, by what the database does. *)
Lemma upsert_user_cases (name city : jsval) (session : Session.t) (st : server) :
  upsert_user w name city session st =
    match db_throws w UserFindOne with
    | Some e => (inr e, st)
    | None =>
        match list_find (fun u => User.phoneNumber u = Session.phoneNumber session)
                (users st) with
        | None =>
            match db_throws w UserSave with
            | Some e => (inr e, bump_oid st)
            | None =>
                let user := created_user w name city session (next_oid st) in
                (inl (user, true, false),
                 with_users (fun us => us ++ [user]) (bump_oid st))
            end
        | Some (i, old) =>
            match db_throws w UserSave with
            | Some e => (inr e, st)
            | None =>
                let user := updated_user w name city old in
                (inl (user, false, true), with_users (fun us => <[i := user]> us) st)
            end
        end
    end.
Proof.
  unfold upsert_user, User_findOne, User_save_new, User_save_found, db_call,
    fresh_oid, mbind, M_bind, gets, modify.
  destruct (db_throws w UserFindOne); [reflexivity|]. cbn [mret M_ret].
  destruct (list_find _ (users st)) as [[i old]|];
    destruct (db_throws w UserSave); reflexivity.
Qed.

Ltac effect_sessions :=
  first
    [ left; reflexivity
    | right; left; by rewrite ?lookup_delete_eq
    | right; right; eexists; split; [reflexivity|]; split; [lia|];
      first [ left; by rewrite lookup_insert_eq | right; by rewrite lookup_insert_eq ] ].

Ltac effect_leads :=
  first
    [ exists []; split; [by rewrite app_nil_r | cbn; lia]
    | eexists [_]; split; [reflexivity | cbn; lia] ].

Ltac effect_users :=
  first
    [ left; reflexivity
    | right; left; eexists; split; [|reflexivity]; cbn; eassumption
    | right; right; do 3 eexists; split; [eassumption|];
      (split; [|split]); [ | | reflexivity]; reflexivity ].

Ltac effect_frame :=
  let k := fresh "k" in
  let Hk := fresh "Hk" in
  intros k Hk; rewrite ?lookup_delete_ne, ?lookup_insert_ne by congruence; reflexivity.

(** What any [/verify-otp] call does to the state. *)
Lemma verify_otp_effect (req : VerifyReq.t) (st : server) :
  let sid := VerifyReq.sessionId req in
  exists resp st',
    verify_otp w req st = (inl resp, st')
    /\ (forall k, k <> sid -> otpSessions st' !! k = otpSessions st !! k)
    /\ session_step (otpSessions st !! sid) (otpSessions st' !! sid)
    /\ (exists more, leads st' = leads st ++ more /\ (length more <= 1)%nat)
    /\ users_step (users st) (users st')
    /\ (exists urls, requests st' = requests st ++ urls /\ (length urls <= 1)%nat).
Proof.
  intros sid. unfold session_step, users_step.
  destruct (truthy sid) eqn:Hsid; cycle 1.
  { destruct (verify_otp_unreached req st (or_introl Hsid)) as [msg ->].
    do 2 eexists. split; [reflexivity|].
    split; [reflexivity|]. split; [effect_sessions|]. split; [effect_leads|].
    split; [effect_users|]. effect_leads. }
  destruct (truthy (VerifyReq.otp req)) eqn:Hotp; cycle 1.
  { destruct (verify_otp_unreached req st (or_intror (or_introl Hotp))) as [msg ->].
    do 2 eexists. split; [reflexivity|].
    split; [reflexivity|]. split; [effect_sessions|]. split; [effect_leads|].
    split; [effect_users|]. effect_leads. }
  destruct (otpSessions st !! sid) as [session|] eqn:Hget; cycle 1.
  { destruct (verify_otp_unreached req st (or_intror (or_intror Hget))) as [msg ->].
    do 2 eexists. split; [reflexivity|].
    split; [reflexivity|]. split; [effect_sessions|]. split; [effect_leads|].
    split; [effect_users|]. effect_leads. }
  destruct (Z.lt_ge_cases ten_minutes (Date_now w - Session.createdAt session))
    as [Hold|Hlive%Z.ge_le_iff].
  { rewrite (verify_otp_expired_run w req st session Hsid Hotp Hget Hold). fold sid.
    do 2 eexists. split; [reflexivity|]. cbn.
    split; [effect_frame|]. split; [effect_sessions|]. split; [effect_leads|].
    split; [effect_users|]. effect_leads. }
  apply Z.ge_le in Hlive.
  destruct (Z.lt_ge_cases (Session.attempts session) 3) as [Hatt|Hfull]; cycle 1.
  { rewrite (verify_otp_exhausted_run w req st session Hsid Hotp Hget Hlive Hfull).
    fold sid. do 2 eexists. split; [reflexivity|]. cbn.
    split; [effect_frame|]. split; [effect_sessions|]. split; [effect_leads|].
    split; [effect_users|]. effect_leads. }
  pose proof (verifyOTP_urls_short sid (VerifyReq.otp req)) as Hurls.
  destruct (accepted w sid (VerifyReq.otp req)) eqn:Hacc; cycle 1.
  { assert (Hrej : rejected w sid (VerifyReq.otp req) = true)
      by (by rewrite rejected_negb_accepted, Hacc).
    rewrite (verify_otp_reject w req st session Hsid Hotp Hget Hlive Hatt Hrej).
    fold sid. do 2 eexists. split; [reflexivity|]. cbn.
    split; [effect_frame|]. split; [effect_sessions|]. split; [effect_leads|].
    split; [effect_users|]. eauto. }
  rewrite (verify_otp_accept_run w req st session Hsid Hotp Hget Hlive Hatt Hacc).
  fold sid. rewrite upsert_user_cases. unfold after_upsert. cbn [users with_otpSessions
    with_requests Session.phoneNumber Session.set_verified].
  destruct (db_throws w UserFindOne).
  { do 2 eexists. split; [reflexivity|]. cbn.
    split; [effect_frame|]. split; [effect_sessions|]. split; [effect_leads|].
    split; [effect_users|]. eauto. }
  destruct (list_find _ (users st)) as [[i old]|] eqn:Hfind.
  - apply list_find_Some in Hfind as (Hi & Hpn & _).
    destruct (db_throws w UserSave);
      [|destruct (db_throws w LeadSave);
        [|cbn zeta;
          match goal with
          | |- context [generateToken w ?u] =>
              destruct (generateToken w u), (generateRefreshToken w u)
          end]];
      (do 2 eexists; split; [reflexivity|]; cbn; fold sid;
       split; [effect_frame|]; split; [effect_sessions|]; split; [effect_leads|];
       split; [effect_users|]; eauto).
  - destruct (db_throws w UserSave);
      [|destruct (db_throws w LeadSave);
        [|cbn zeta;
          match goal with
          | |- context [generateToken w ?u] =>
              destruct (generateToken w u), (generateRefreshToken w u)
          end]];
      (do 2 eexists; split; [reflexivity|]; cbn; fold sid;
       split; [effect_frame|]; split; [effect_sessions|]; split; [effect_leads|];
       split; [effect_users|]; eauto).
Qed.

End MoreVerify.

Section MoreSend.
Variable w : world.

Lemma sendOTP_urls_short (phoneNumber : jsval) :
  (length (gateway_urls (TwoFactorService.sendOTP w phoneNumber)) <= 2)%nat.
Proof.
  unfold gateway_urls, TwoFactorService.sendOTP, try_catch.
  destruct (negb (truthy phoneNumber) || negb (is_string phoneNumber)); [cbn; lia|].
  unfold mbind at 1, M_bind at 1. rewrite sendSMSOTP_run.
  destruct (gateway_reply (TwoFactorService.getApiKey w)) as [key|e] eqn:Hkey.
  - destruct (axios_get w (TwoFactorService.sms_url key _)) as [st d|e].
    + destruct (strict_eq st (JStr "Success")); [cbn; lia|].
      cbn [TwoFactorService.success TwoFactorService.failed].
      unfold mbind at 1, M_bind at 1. rewrite sendVoiceOTP_run, Hkey.
      destruct (axios_get w (TwoFactorService.voice_url key _)) as [st' d'|e'];
        [destruct (strict_eq st' (JStr "Success"))|]; cbn; lia.
    + cbn [TwoFactorService.success TwoFactorService.failed].
      unfold mbind at 1, M_bind at 1. rewrite sendVoiceOTP_run, Hkey.
      destruct (axios_get w (TwoFactorService.voice_url key _)) as [st' d'|e'];
        [destruct (strict_eq st' (JStr "Success"))|]; cbn; lia.
  - cbn [TwoFactorService.success TwoFactorService.failed].
    unfold mbind at 1, M_bind at 1. rewrite sendVoiceOTP_run, Hkey. cbn. lia.
Qed.

(** The phone check of [/send-otp] passes exactly the strings of ten
    characters. *)
Lemma phone_check (phone : jsval) :
  negb (truthy phone) || strict_neq (js_length phone) (JNum 10) = false
  <-> exists s, phone = JStr s /\ String.length s = 10%nat.
Proof.
  split.
  - intros [Ht%negb_false_iff Hl%negb_false_iff]%orb_false_elim.
    apply strict_eq_true in Hl.
    destruct phone as [| | |n|s]; try discriminate. exists s. split; [reflexivity|].
    cbn in Hl. injection Hl as Hl. lia.
  - intros (s & -> & Hl). cbn. rewrite Hl.
    destruct s; [discriminate Hl|]. reflexivity.
Qed.

(** What any [/send-otp] call does to the state. *)
Lemma send_otp_effect (req : SendReq.t) (st : server) :
  exists resp st',
    send_otp w req st = (inl resp, st')
    /\ users st' = users st /\ leads st' = leads st /\ next_oid st' = next_oid st
    /\ (exists urls, requests st' = requests st ++ urls /\ (length urls <= 2)%nat)
    /\ (otpSessions st' = otpSessions st /\ status resp <> 200
        \/ exists r,
             gateway_reply (TwoFactorService.sendOTP w (dialled req)) = inl r
             /\ TwoFactorService.success r = true
             /\ status resp = 200
             /\ otpSessions st'
                = sweep (Date_now w - ten_minutes)
                    (<[TwoFactorService.sessionId r := fresh_session w req r]>
                       (otpSessions st))).
Proof.
  destruct (negb (truthy (SendReq.phone req))
            || strict_neq (js_length (SendReq.phone req)) (JNum 10)) eqn:Hcheck.
  - rewrite (send_otp_invalid w req st Hcheck).
    do 2 eexists. split; [reflexivity|]. do 3 (split; [reflexivity|]).
    split; [exists []; split; [by rewrite app_nil_r | cbn; lia]|].
    left. split; [reflexivity | discriminate].
  - apply orb_false_elim in Hcheck as [Ht%negb_false_iff Hl%negb_false_iff].
    apply strict_eq_true in Hl.
    destruct (sendOTP_returns w (dialled req)) as [r Hr].
    rewrite (send_otp_run w req st r Ht Hl Hr).
    destruct (TwoFactorService.success r) eqn:Hok.
    + do 2 eexists. split; [reflexivity|]. cbn. do 3 (split; [reflexivity|]).
      split; [eexists; split; [reflexivity | apply sendOTP_urls_short]|].
      right. exists r. auto.
    + do 2 eexists. split; [reflexivity|]. cbn. do 3 (split; [reflexivity|]).
      split; [eexists; split; [reflexivity | apply sendOTP_urls_short]|].
      left. split; [reflexivity | discriminate].
Qed.

End MoreSend.

Section Persisted.
Variable w : world.

(** An accepted code with a healthy database: what is stored when the
    handler has answered, whatever the token signers do. *)
Lemma verify_otp_persisted (req : VerifyReq.t) (st : server) (session : Session.t) :
  let sid := VerifyReq.sessionId req in
  let session' := Session.set_verified true session in
  truthy sid = true ->
  truthy (VerifyReq.otp req) = true ->
  otpSessions st !! sid = Some session ->
  Date_now w - Session.createdAt session <= ten_minutes ->
  Session.attempts session < 3 ->
  accepted w sid (VerifyReq.otp req) = true ->
  (forall op, db_throws w op = None) ->
  exists resp st' user isNewUser oid,
    verify_otp w req st = (inl resp, st')
    /\ otpSessions st' = delete sid (otpSessions st)
    /\ leads st' = leads st ++ [built_lead w req session' user oid]
    /\ match list_find (fun u => User.phoneNumber u = Session.phoneNumber session)
               (users st) with
       | None =>
           user = created_user w (VerifyReq.name req) (VerifyReq.city req) session'
                    (next_oid st)
           /\ isNewUser = true
           /\ users st' = users st ++ [user]
       | Some (i, old) =>
           user = updated_user w (VerifyReq.name req) (VerifyReq.city req) old
           /\ isNewUser = false
           /\ users st' = <[i := user]> (users st)
       end
    /\ match generateToken w user, generateRefreshToken w user with
       | inl token, inl refreshToken =>
           status resp = 200
           /\ json resp
              = LoggedIn (if isNewUser then "Account created successfully. Welcome!"
                          else "Welcome back! You're logged in.")
                         (user_json session' user isNewUser (negb isNewUser))
                         {| LeadJson.id := oid;
                            LeadJson.propertyName :=
                              js_or (VerifyReq.propertyName req) JNull |}
                         token refreshToken
       | _, _ => resp = verify_failed
       end.
Proof.
  intros sid session' Hsid Hotp Hget Hlive Hatt Hacc Hdb. subst session'.
  rewrite (verify_otp_accept_run w req st session Hsid Hotp Hget Hlive Hatt Hacc).
  rewrite upsert_user_cases, (Hdb UserFindOne), (Hdb UserSave).
  fold sid.
  cbn [users next_oid with_otpSessions with_requests Session.phoneNumber
       Session.set_verified].
  assert (Hgone : forall (s : Session.t) (m : gmap jsval Session.t),
             delete sid (<[sid := s]> m) = delete sid m)
    by (intros s m; apply delete_insert_eq).
  destruct (list_find _ (users st)) as [[i old]|]; cbn zeta; unfold after_upsert;
    rewrite (Hdb LeadSave);
    match goal with
    | |- context [generateToken w ?u] =>
        destruct (generateToken w u) eqn:Htok, (generateRefreshToken w u) eqn:Hrtok
    end;
    (do 5 eexists; split; [reflexivity|]; cbn; fold sid; rewrite Hgone;
     split; [reflexivity|]; split; [reflexivity|];
     split; [repeat split; reflexivity|];
     rewrite ?Htok, ?Hrtok; cbv beta iota; repeat split; reflexivity).
Qed.

End Persisted.

Section SendProperties.
Variable w : world.

Lemma sendOTP_success_fields (phoneNumber : jsval) (r : TwoFactorService.result) :
  gateway_reply (TwoFactorService.sendOTP w phoneNumber) = inl r ->
  TwoFactorService.success r = true ->
  TwoFactorService.dbFormattedPhone r = JStr (formatPhoneNumber (to_String phoneNumber))
  /\ (TwoFactorService.type r = JStr "sms" \/ TwoFactorService.type r = JStr "voice")
  /\ exists apiKey more,
       gateway_reply (TwoFactorService.getApiKey w) = inl apiKey
       /\ gateway_urls (TwoFactorService.sendOTP w phoneNumber)
          = TwoFactorService.sms_url apiKey (formatPhoneForAPI (to_String phoneNumber))
            :: more.
Proof.
  unfold gateway_reply at 1, gateway_urls, TwoFactorService.sendOTP, try_catch.
  destruct (negb (truthy phoneNumber) || negb (is_string phoneNumber));
    [cbn; intros [= <-]; discriminate|].
  unfold mbind at 1 3, M_bind at 1 3. rewrite sendSMSOTP_run.
  destruct (gateway_reply (TwoFactorService.getApiKey w)) as [key|e] eqn:Hkey.
  - destruct (axios_get w (TwoFactorService.sms_url key _)) as [st d|e].
    + destruct (strict_eq st (JStr "Success")).
      * cbn. intros [= <-] _. eauto 10.
      * cbn [TwoFactorService.success TwoFactorService.failed].
        unfold mbind at 1 2, M_bind at 1 2. rewrite sendVoiceOTP_run, Hkey.
        destruct (axios_get w (TwoFactorService.voice_url key _)) as [st' d'|e'];
          [destruct (strict_eq st' (JStr "Success"))|];
          cbn; intros [= <-]; try discriminate; intros _; eauto 10.
    + cbn [TwoFactorService.success TwoFactorService.failed].
      unfold mbind at 1 2, M_bind at 1 2. rewrite sendVoiceOTP_run, Hkey.
      destruct (axios_get w (TwoFactorService.voice_url key _)) as [st' d'|e'];
        [destruct (strict_eq st' (JStr "Success"))|];
        cbn; intros [= <-]; try discriminate; intros _; eauto 10.
  - cbn [TwoFactorService.success TwoFactorService.failed].
    unfold mbind at 1 2, M_bind at 1 2. rewrite sendVoiceOTP_run, Hkey.
    cbn. intros [= <-]. discriminate.
Qed.

(** X10: [/send-otp] answers 400 exactly when the phone, a scalar of the
    JSON body or absent, is not a string of ten characters (missing,
    empty, a number, too short or too long), and then nothing at all
    changes: no request to the gateway, no session. *)
Theorem send_otp_refuses_exactly_wrong_length (req : SendReq.t) (st : server) :
  exists resp st',
    send_otp w req st = (inl resp, st')
    /\ (status resp = 400
        <-> ~ exists s, SendReq.phone req = JStr s /\ String.length s = 10%nat)
    /\ (status resp = 400 -> st' = st).
Proof.
  destruct (negb (truthy (SendReq.phone req))
            || strict_neq (js_length (SendReq.phone req)) (JNum 10)) eqn:Hcheck.
  - rewrite (send_otp_invalid w req st Hcheck).
    do 2 eexists. split; [reflexivity|]. split; [|reflexivity].
    split; [|reflexivity]. intros _ Hs. apply phone_check in Hs. congruence.
  - pose proof (proj1 (phone_check _) Hcheck) as Hs.
    apply orb_false_elim in Hcheck as [Ht%negb_false_iff Hl%negb_false_iff].
    apply strict_eq_true in Hl.
    destruct (sendOTP_returns w (dialled req)) as [r Hr].
    rewrite (send_otp_run w req st r Ht Hl Hr).
    destruct (TwoFactorService.success r);
      (do 2 eexists; split; [reflexivity|]; cbn;
       split; [split; [discriminate | intros H; destruct (H Hs)] | discriminate]).
Qed.

(** X11: [/send-otp] never touches the database: users, leads and the id
    counter are as before, whatever the request; and it makes at most two
    gateway requests. *)
Theorem send_otp_never_touches_database (req : SendReq.t) (st : server) :
  exists resp st',
    send_otp w req st = (inl resp, st')
    /\ users st' = users st
    /\ leads st' = leads st
    /\ next_oid st' = next_oid st
    /\ exists urls, requests st' = requests st ++ urls /\ (length urls <= 2)%nat.
Proof.
  destruct (send_otp_effect w req st) as (resp & st' & Hrun & Hu & Hl & Hn & Hreq & _).
  exists resp, st'. auto.
Qed.

(** X12: a send that succeeds for the ten characters [p] asked the gateway
    first for an SMS to "91" followed by the digits of [p], and stores a
    session whose [phoneNumber] is "+91" followed by those digits, whose
    [phone] is [p] as sent, and whose channel is "sms" or "voice". *)
Theorem send_otp_stores_plus91_digits
    (req : SendReq.t) (st : server) (p : string) (r : TwoFactorService.result) :
  SendReq.phone req = JStr p ->
  String.length p = 10%nat ->
  gateway_reply (TwoFactorService.sendOTP w (dialled req)) = inl r ->
  TwoFactorService.success r = true ->
  exists resp st' s apiKey more,
    send_otp w req st = (inl resp, st')
    /\ otpSessions st' !! TwoFactorService.sessionId r = Some s
    /\ Session.phoneNumber s = JStr ("+91" +:+ strip_non_digits p)
    /\ Session.phone s = JStr p
    /\ (Session.otpType s = JStr "sms" \/ Session.otpType s = JStr "voice")
    /\ gateway_reply (TwoFactorService.getApiKey w) = inl apiKey
    /\ requests st'
       = requests st
         ++ TwoFactorService.sms_url apiKey ("91" +:+ strip_non_digits p) :: more.
Proof.
  intros Hp Hlen Hr Hok.
  assert (Hcheck : negb (truthy (SendReq.phone req))
                   || strict_neq (js_length (SendReq.phone req)) (JNum 10) = false)
    by (apply phone_check; eauto).
  apply orb_false_elim in Hcheck as [Ht%negb_false_iff Hl%negb_false_iff].
  apply strict_eq_true in Hl.
  rewrite (send_otp_run w req st r Ht Hl Hr), Hok.
  destruct (sendOTP_success_fields (dialled req) r Hr Hok)
    as (Hdb & Hty & key & more & Hkey & Hurls).
  assert (Hd : to_String (dialled req) = "+91" +:+ p)
    by (unfold dialled; rewrite Hp; reflexivity).
  rewrite Hd in Hdb, Hurls.
  destruct (formatters_on_plus91 p) as [Hapi Hsto].
  rewrite Hsto in Hdb. rewrite Hapi in Hurls.
  do 2 eexists. exists (fresh_session w req r), key, more.
  split; [reflexivity|]. cbn.
  split.
  { apply sweep_lookup. rewrite lookup_insert_eq. split; [reflexivity|].
    cbn. unfold ten_minutes. lia. }
  rewrite Hdb, Hurls, Hp.
  split; [reflexivity|]. split; [reflexivity|].
  split; [destruct Hty as [-> | ->]; auto|]. auto.
Qed.

(** X13: a send that succeeds purges the store: afterwards no stored
    session is more than ten minutes old, and every session that is not
    older than that, other than the one just written, is still there
    unchanged.  A send that does not succeed purges nothing. *)
Theorem send_otp_purges_stale_sessions (req : SendReq.t) (st : server) :
  exists resp st',
    send_otp w req st = (inl resp, st')
    /\ (status resp = 200 ->
          (forall k s, otpSessions st' !! k = Some s ->
                       Date_now w - Session.createdAt s <= ten_minutes)
          /\ exists sid,
               json resp = Sent "OTP sent successfully to your mobile number" sid
               /\ forall k s, k <> sid ->
                    otpSessions st !! k = Some s ->
                    Date_now w - Session.createdAt s <= ten_minutes ->
                    otpSessions st' !! k = Some s)
    /\ (status resp <> 200 -> otpSessions st' = otpSessions st).
Proof.
  destruct (negb (truthy (SendReq.phone req))
            || strict_neq (js_length (SendReq.phone req)) (JNum 10)) eqn:Hcheck.
  { rewrite (send_otp_invalid w req st Hcheck).
    do 2 eexists. split; [reflexivity|]. split; [discriminate | reflexivity]. }
  apply orb_false_elim in Hcheck as [Ht%negb_false_iff Hl%negb_false_iff].
  apply strict_eq_true in Hl.
  destruct (sendOTP_returns w (dialled req)) as [r Hr].
  rewrite (send_otp_run w req st r Ht Hl Hr).
  destruct (TwoFactorService.success r).
  - do 2 eexists. split; [reflexivity|]. cbn. split; [|congruence]. intros _. split.
    + intros k s [_ Hs]%sweep_lookup. lia.
    + eexists. split; [reflexivity|]. intros k s Hk Hget Hage.
      apply sweep_lookup. rewrite lookup_insert_ne by congruence. split; [exact Hget | lia].
  - do 2 eexists. split; [reflexivity|]. cbn. split; [discriminate | reflexivity].
Qed.

End SendProperties.

Section VerifyProperties.
Variable w : world.

(** X14: a verify call without session id or code, or naming a session
    that is not stored, is answered 400 and changes nothing; the gateway
    is not asked. *)
Theorem verify_otp_ignores_unknown_session (req : VerifyReq.t) (st : server) :
  truthy (VerifyReq.sessionId req) = false
  \/ truthy (VerifyReq.otp req) = false
  \/ otpSessions st !! VerifyReq.sessionId req = None ->
  exists msg,
    verify_otp w req st = (inl (refuse 400 (JStr msg)), st)
    /\ msg = (if truthy (VerifyReq.sessionId req) && truthy (VerifyReq.otp req)
              then "Session expired or invalid. Please request a new OTP."
              else "Session ID and OTP are required").
Proof.
  intros H. unfold verify_otp, try_catch, mbind, M_bind, gets.
  destruct (truthy (VerifyReq.sessionId req)) eqn:Hsid; [|cbn; eauto].
  destruct (truthy (VerifyReq.otp req)) eqn:Hotp; [|cbn; eauto].
  destruct H as [H|[H|H]]; [discriminate..|]. cbn [negb orb andb]. rewrite H. eauto.
Qed.

(** X15: whatever the request and the state, a verify call touches no
    session but the one it names, appends at most one lead and changes or
    removes none, adds at most one user and removes none, and makes at
    most one gateway request. *)
Theorem verify_otp_frame (req : VerifyReq.t) (st : server) :
  exists resp st',
    verify_otp w req st = (inl resp, st')
    /\ (forall k, k <> VerifyReq.sessionId req ->
                  otpSessions st' !! k = otpSessions st !! k)
    /\ (exists more, leads st' = leads st ++ more /\ (length more <= 1)%nat)
    /\ (length (users st) <= length (users st') <= S (length (users st)))%nat
    /\ (exists urls, requests st' = requests st ++ urls /\ (length urls <= 1)%nat).
Proof.
  destruct (verify_otp_effect w req st)
    as (resp & st' & Hrun & Hframe & _ & Hleads & Husers & Hreq).
  exists resp, st'. repeat (split; [assumption|]). split; [|assumption].
  destruct Husers as [-> | [(u & _ & ->) | (i & old & u & _ & _ & _ & ->)]].
  - lia.
  - rewrite length_app. cbn. lia.
  - rewrite length_insert. lia.
Qed.


(** X17: a lead that cannot be saved does not undo the user.  When the
    gateway accepts the code, the user lookup and save succeed and the
    lead save throws, the handler answers 500; the user is created or
    rewritten all the same, no lead is stored, and the session stays in
    the store. *)
Theorem lead_failure_keeps_user
    (req : VerifyReq.t) (st : server) (session : Session.t) (e : js_error) :
  let sid := VerifyReq.sessionId req in
  let session' := Session.set_verified true session in
  truthy sid = true ->
  truthy (VerifyReq.otp req) = true ->
  otpSessions st !! sid = Some session ->
  Date_now w - Session.createdAt session <= ten_minutes ->
  Session.attempts session < 3 ->
  accepted w sid (VerifyReq.otp req) = true ->
  db_throws w UserFindOne = None ->
  db_throws w UserSave = None ->
  db_throws w LeadSave = Some e ->
  exists st',
    verify_otp w req st = (inl verify_failed, st')
    /\ leads st' = leads st
    /\ otpSessions st' !! sid = Some session'
    /\ users st'
       = match list_find (fun u => User.phoneNumber u = Session.phoneNumber session)
                 (users st) with
         | None =>
             users st ++ [created_user w (VerifyReq.name req) (VerifyReq.city req)
                            session' (next_oid st)]
         | Some (i, old) =>
             <[i := updated_user w (VerifyReq.name req) (VerifyReq.city req) old]>
               (users st)
         end.
Proof.
  intros sid session' Hsid Hotp Hget Hlive Hatt Hacc Hfind Hsave Hlead.
  subst session'.
  rewrite (verify_otp_accept_run w req st session Hsid Hotp Hget Hlive Hatt Hacc).
  rewrite upsert_user_cases, Hfind, Hsave. fold sid.
  cbn [users next_oid with_otpSessions with_requests Session.phoneNumber
       Session.set_verified].
  destruct (list_find _ (users st)) as [[i old]|]; cbn zeta; unfold after_upsert;
    rewrite Hlead;
    (eexists; split; [reflexivity|]; cbn; split; [reflexivity|];
     split; [apply lookup_insert_eq | reflexivity]).
Qed.

(** X18: a token that cannot be signed comes too late to undo anything.
    When the gateway accepts the code, the database is healthy and a
    signer throws, the handler answers 500, yet the user and one lead are
    stored and the session is gone, so the same code cannot be tried
    again. *)
Theorem token_failure_after_commit
    (req : VerifyReq.t) (st : server) (session : Session.t) :
  let sid := VerifyReq.sessionId req in
  truthy sid = true ->
  truthy (VerifyReq.otp req) = true ->
  otpSessions st !! sid = Some session ->
  Date_now w - Session.createdAt session <= ten_minutes ->
  Session.attempts session < 3 ->
  accepted w sid (VerifyReq.otp req) = true ->
  (forall op, db_throws w op = None) ->
  (forall u, exists e, generateToken w u = inr e)
  \/ (forall u, exists e, generateRefreshToken w u = inr e) ->
  exists st' lead,
    verify_otp w req st = (inl verify_failed, st')
    /\ otpSessions st' !! sid = None
    /\ leads st' = leads st ++ [lead]
    /\ ((exists u, users st' = users st ++ [u])
        \/ (exists i u, (i < length (users st))%nat
                        /\ users st' = <[i := u]> (users st))).
Proof.
  intros sid Hsid Hotp Hget Hlive Hatt Hacc Hdb Htok.
  destruct (verify_otp_persisted w req st session Hsid Hotp Hget Hlive Hatt Hacc Hdb)
    as (resp & st' & user & isNew & oid & Hrun & Hsess & Hleads & Husers & Hresp).
  assert (resp = verify_failed) as ->.
  { destruct Htok as [H|H].
    - destruct (H user) as [e He]. rewrite He in Hresp. exact Hresp.
    - destruct (H user) as [e He]. rewrite He in Hresp.
      destruct (generateToken w user); exact Hresp. }
  exists st', (built_lead w req (Session.set_verified true session) user oid).
  split; [exact Hrun|]. split; [rewrite Hsess; apply lookup_delete_eq|].
  split; [exact Hleads|].
  destruct (list_find _ (users st)) as [[i old]|] eqn:Hfind.
  - destruct Husers as (_ & _ & ->). apply list_find_Some in Hfind as (Hi & _).
    apply lookup_lt_Some in Hi. right. eauto.
  - destruct Husers as (_ & _ & ->). left. eauto.
Qed.

(** X19: trouble that is not a wrong code still costs an attempt.  A code
    or session id that is not a string (a JSON number, say), an unusable
    key and a gateway request that is rejected (network error, timeout,
    error status) are all answered "Invalid OTP" and counted against a
    live session. *)
Theorem gateway_trouble_costs_an_attempt
    (req : VerifyReq.t) (st : server) (session : Session.t) :
  let sid := VerifyReq.sessionId req in
  let otp := VerifyReq.otp req in
  truthy sid = true ->
  truthy otp = true ->
  otpSessions st !! sid = Some session ->
  Date_now w - Session.createdAt session <= ten_minutes ->
  Session.attempts session < 3 ->
  is_string otp = false
  \/ is_string sid = false
  \/ (exists e, gateway_reply (TwoFactorService.getApiKey w) = inr e)
  \/ (exists apiKey e,
        gateway_reply (TwoFactorService.getApiKey w) = inl apiKey
        /\ axios_get w (TwoFactorService.verify_url apiKey (to_String sid) (to_String otp))
           = Rejected e) ->
  exists st',
    verify_otp w req st
      = (inl (refuse 400 (JStr ("Invalid OTP. "
                                 +:+ pretty (3 - (Session.attempts session + 1))
                                 +:+ " attempts remaining."))), st')
    /\ otpSessions st' !! sid
       = Some (Session.set_attempts (Session.attempts session + 1) session).
Proof.
  intros sid otp Hsid Hotp Hget Hlive Hatt Hcause.
  assert (Hrej : rejected w sid otp = true).
  { unfold rejected, gateway_reply. rewrite verifyOTP_run. unfold nonempty_string.
    rewrite Hsid, Hotp. cbn [andb].
    destruct Hcause as [H|[H|[[e H]|(key & e & Hkey & H)]]].
    - rewrite H. destruct (is_string sid); reflexivity.
    - rewrite H. reflexivity.
    - rewrite H. destruct (is_string sid), (is_string otp); reflexivity.
    - rewrite Hkey. cbn zeta. rewrite H.
      destruct (is_string sid), (is_string otp); reflexivity. }
  eexists. split; [apply (verify_otp_reject w req st session); assumption|].
  cbn. apply lookup_insert_eq.
Qed.


End VerifyProperties.

Section Journeys.


(** One request keeps each of the three invariants. *)
Lemma handle_keeps_attempts_bounded (st : server) (r : request) :
  attempts_bounded (otpSessions st) -> attempts_bounded (otpSessions (handle st r)).
Proof.
  intros Hinv. destruct r as [w req|w req]; cbn [handle].
  - destruct (send_otp_effect w req st)
      as (resp & st' & -> & _ & _ & _ & _ & Hcase). cbn [snd].
    destruct Hcase as [[-> _]|(r & _ & _ & _ & ->)]; [exact Hinv|].
    intros k s [Hs _]%sweep_lookup.
    destruct (decide (k = TwoFactorService.sessionId r)) as [->|Hne].
    + rewrite lookup_insert_eq in Hs. injection Hs as <-. cbn. lia.
    + rewrite lookup_insert_ne in Hs by (intros Heq; exact (Hne (eq_sym Heq))).
      exact (Hinv k s Hs).
  - destruct (verify_otp_effect w req st)
      as (resp & st' & -> & Hframe & Hstep & _). cbn [snd].
    intros k s Hs.
    destruct (decide (k = VerifyReq.sessionId req)) as [->|Hne];
      [|rewrite (Hframe k Hne) in Hs; exact (Hinv k s Hs)].
    destruct Hstep as [Heq|[Hgone|(s0 & Hs0 & Hlt & [Hnew|Hnew])]].
    + rewrite Heq in Hs. exact (Hinv _ s Hs).
    + congruence.
    + rewrite Hnew in Hs. injection Hs as <-.
      pose proof (Hinv _ s0 Hs0). cbn. lia.
    + rewrite Hnew in Hs. injection Hs as <-. exact (Hinv _ s0 Hs0).
Qed.

Lemma users_step_keeps_unique (us us' : list User.t) :
  users_step us us' -> phones_unique us -> phones_unique us'.
Proof.
  unfold phones_unique.
  intros [-> | [(u & Hnone & ->) | (i & old & u & Hi & Hpn & _ & ->)]] Hinv.
  - exact Hinv.
  - rewrite fmap_app. apply NoDup_app. split; [exact Hinv|].
    split; [|apply NoDup_singleton].
    intros x Hx Hx'. apply list_elem_of_singleton in Hx'. subst x.
    apply list_elem_of_fmap in Hx as (v & Hv & Hin).
    apply list_find_None in Hnone. rewrite Forall_forall in Hnone.
    exact (Hnone v Hin (eq_sym Hv)).
  - rewrite list_fmap_insert, Hpn, list_insert_id; [exact Hinv|].
    rewrite list_lookup_fmap, Hi. reflexivity.
Qed.

Lemma handle_keeps_phones_unique (st : server) (r : request) :
  phones_unique (users st) -> phones_unique (users (handle st r)).
Proof.
  intros Hinv. destruct r as [w req|w req]; cbn [handle].
  - destruct (send_otp_effect w req st) as (resp & st' & -> & Hu & _). cbn [snd].
    by rewrite Hu.
  - destruct (verify_otp_effect w req st)
      as (resp & st' & -> & _ & _ & _ & Hstep & _). cbn [snd].
    exact (users_step_keeps_unique _ _ Hstep Hinv).
Qed.

(** X22: however many requests are served one after the other, and in
    whatever worlds, every stored session has made between zero and three
    attempts, if that was so at the start (as it is for the empty store
    of a fresh process). *)
Theorem attempts_always_bounded (rs : list request) (st : server) :
  attempts_bounded (otpSessions st) ->
  attempts_bounded (otpSessions (serve rs st)).
Proof.
  revert st. induction rs as [|r rs IH]; intros st Hinv; [exact Hinv|].
  cbn. apply IH, handle_keeps_attempts_bounded, Hinv.
Qed.

(** X23: however many requests are served one after the other, no two
    users come to share a phone number, if none did at the start. *)
Theorem phone_numbers_stay_unique (rs : list request) (st : server) :
  phones_unique (users st) ->
  phones_unique (users (serve rs st)).
Proof.
  revert st. induction rs as [|r rs IH]; intros st Hinv; [exact Hinv|].
  cbn. apply IH, handle_keeps_phones_unique, Hinv.
Qed.

(** X24: leads are only ever appended: whatever requests are served one
    after the other, the leads stored before are still there, unchanged
    and in order, and at most one lead is added per request. *)
Theorem leads_are_append_only (rs : list request) (st : server) :
  exists more,
    leads (serve rs st) = leads st ++ more /\ (length more <= length rs)%nat.
Proof.
  revert st. induction rs as [|r rs IH]; intros st.
  - exists []. split; [by rewrite app_nil_r | reflexivity].
  - cbn [serve fold_left]. destruct (IH (handle st r)) as (more & Hmore & Hlen).
    fold (serve rs (handle st r)). rewrite Hmore.
    assert (exists one, leads (handle st r) = leads st ++ one /\ (length one <= 1)%nat)
      as (one & -> & Hone).
    { destruct r as [w req|w req]; cbn [handle].
      - destruct (send_otp_effect w req st) as (resp & st' & -> & _ & Hl & _).
        cbn [snd]. exists []. split; [by rewrite Hl, app_nil_r | cbn; lia].
      - destruct (verify_otp_effect w req st)
          as (resp & st' & -> & _ & _ & Hl & _). exact Hl. }
    exists (one ++ more). split; [by rewrite app_assoc|].
    rewrite length_app. cbn. lia.
Qed.

End Journeys.

(* ===================================================================== *)
(** ** Properties of the request guards                                    *)
(* ===================================================================== *)

Section Guards.

Lemma Array_includes_elem_of (xs : list jsval) (v : jsval) :
  Array_includes xs v = true <-> v ∈ xs.
Proof.
  unfold Array_includes. rewrite existsb_exists. split.
  - intros (x & Hin & Heq). apply bool_decide_eq_true in Heq. subst x.
    by apply list_elem_of_In.
  - intros Hin. exists v. split; [by apply list_elem_of_In|].
    by apply bool_decide_eq_true.
Qed.

Lemma ipWhitelist_next (l : list jsval) (ip remote : jsval) :
  ipWhitelist l ip remote = next <-> l = [] \/ js_or ip remote ∈ l.
Proof.
  unfold ipWhitelist. destruct l as [|a l]; cbn [length Nat.eqb].
  - split; [by left | reflexivity].
  - destruct (Array_includes (a :: l) (js_or ip remote)) eqn:Hin; cbn [negb].
    + apply Array_includes_elem_of in Hin. split; [by right | reflexivity].
    + split; [discriminate|]. intros [H|H]; [discriminate H|].
      apply Array_includes_elem_of in H. congruence.
Qed.

(** X25: [validateApiKey] lets a request through exactly when no key, or
    an empty one, is configured, or the request's header equals the
    configured key; every other request is answered 401. *)
Theorem validateApiKey_passes_iff (API_KEY : option string) (x_api_key : jsval) :
  (validateApiKey API_KEY x_api_key = next
   <-> API_KEY = None \/ API_KEY = Some "" \/ x_api_key = env API_KEY)
  /\ (validateApiKey API_KEY x_api_key <> next ->
      validateApiKey API_KEY x_api_key
      = blocked 401 "Unauthorized" "Valid API key required").
Proof.
  unfold validateApiKey. destruct API_KEY as [key|]; cbn [env truthy negb];
    [|split; [split; [by left | reflexivity] | intros []; reflexivity]].
  destruct (String.eqb key "") eqn:Hkey; cbn [negb].
  { apply String.eqb_eq in Hkey as ->.
    split; [split; [by right; left | reflexivity] | intros []; reflexivity]. }
  apply String.eqb_neq in Hkey.
  destruct (decide (x_api_key = JStr key)) as [->|Hne].
  - cbn [truthy]. rewrite (proj2 (String.eqb_neq _ _) Hkey). cbn [negb orb].
    unfold strict_neq, strict_eq. rewrite bool_decide_eq_true_2 by reflexivity.
    split; [split; [by right; right | reflexivity] | intros []; reflexivity].
  - assert (Hblock : negb (truthy x_api_key) || strict_neq x_api_key (JStr key) = true).
    { unfold strict_neq, strict_eq. rewrite bool_decide_eq_false_2 by exact Hne.
      apply orb_true_r. }
    rewrite Hblock. split; [|reflexivity].
    split; [discriminate|]. intros [H|[H|H]]; [discriminate H | | contradiction].
    injection H as ->. contradiction.
Qed.

(** X26: [ipWhitelist] lets a request through exactly when the list is
    empty or holds the client address, which is [req.ip] or, when that is
    missing or empty, the connection's remote address; every other
    request is answered 403. *)
Theorem ipWhitelist_passes_iff (allowedIPs : list jsval) (ip remoteAddress : jsval) :
  (ipWhitelist allowedIPs ip remoteAddress = next
   <-> allowedIPs = [] \/ js_or ip remoteAddress ∈ allowedIPs)
  /\ (ipWhitelist allowedIPs ip remoteAddress <> next ->
      ipWhitelist allowedIPs ip remoteAddress
      = blocked 403 "Forbidden" "Access denied from this IP address").
Proof.
  split; [apply ipWhitelist_next|].
  unfold ipWhitelist. destruct (length allowedIPs =? 0)%nat; [intros []; reflexivity|].
  destruct (Array_includes _ _); cbn [negb]; [intros []|]; reflexivity.
Qed.

(** X27: the whitelist does not grow the way a list of permissions does.
    The empty list admits every address; the first entry shuts out every
    other address; from then on a longer list never shuts out an address
    that a shorter one admitted. *)
Theorem ipWhitelist_first_entry_closes
    (allowedIPs more : list jsval) (a ip remoteAddress : jsval) :
  ipWhitelist [] ip remoteAddress = next
  /\ (js_or ip remoteAddress <> a -> ipWhitelist [a] ip remoteAddress <> next)
  /\ (allowedIPs <> [] ->
      ipWhitelist allowedIPs ip remoteAddress = next ->
      ipWhitelist (allowedIPs ++ more) ip remoteAddress = next).
Proof.
  split; [reflexivity|]. split.
  - intros Hne [H|H]%ipWhitelist_next; [discriminate H|].
    apply list_elem_of_singleton in H. contradiction.
  - intros Hl [H|H]%ipWhitelist_next; [contradiction|].
    apply ipWhitelist_next. right. apply elem_of_app. by left.
Qed.

End Guards.

(* ===================================================================== *)
(** ** The further properties on the scenario                              *)
(* ===================================================================== *)

Section MoreInstances.
Import Scenario Trouble.

(** A key padded with blanks and a line end is used without them. *)
Lemma getApiKey_returns_trimmed_key_witness :
  gateway_reply (TwoFactorService.getApiKey (padded 1000)) = inl "0123456789abcdef"
  /\ exists raw,
       TWO_FACTOR_API_KEY (padded 1000) = Some raw
       /\ "0123456789abcdef" = trim raw
       /\ trim "0123456789abcdef" = "0123456789abcdef"
       /\ starts_clean "0123456789abcdef" = true
       /\ ends_clean "0123456789abcdef" = true
       /\ (10 <= String.length "0123456789abcdef")%nat.
Proof.
  assert (H1 : gateway_reply (TwoFactorService.getApiKey (padded 1000))
               = inl "0123456789abcdef") by (vm_compute; reflexivity).
  split; [assumption|].
  exact (getApiKey_returns_trimmed_key (padded 1000) "0123456789abcdef" H1).
Defined.

(** Without the key no request leaves the process. *)
Lemma unusable_key_no_request_witness :
  gateway_reply (TwoFactorService.getApiKey (keyless 1000))
  = inr (Error "2Factor API key is required. Please check your environment configuration.")
  /\ (exists r,
        TwoFactorService.sendOTP (keyless 1000) (JStr "+919876543210") [] = (inl r, [])
        /\ TwoFactorService.success r = false)
  /\ (exists r,
        TwoFactorService.verifyOTP (keyless 1000) (JStr "sess-1") (JStr "123456") []
        = (inl r, [])
        /\ TwoFactorService.success r = false)
  /\ (exists r,
        TwoFactorService.getBalance (keyless 1000) [] = (inl r, [])
        /\ TwoFactorService.Balance.success r = false).
Proof.
  assert (H1 : gateway_reply (TwoFactorService.getApiKey (keyless 1000))
               = inr (Error "2Factor API key is required. Please check your environment configuration."))
    by (vm_compute; reflexivity).
  split; [assumption|].
  destruct (unusable_key_no_request (keyless 1000) _ H1) as (Hsend & Hverify & Hbal).
  split; [exact (Hsend (JStr "+919876543210") [])|].
  split; [exact (Hverify (JStr "sess-1") (JStr "123456") []) | exact (Hbal [])].
Defined.

(** The send that opens the scenario's session. *)
Lemma send_otp_stores_plus91_digits_witness :
  SendReq.phone asha_send = JStr "9876543210"
  /\ String.length "9876543210" = 10%nat
  /\ gateway_reply (TwoFactorService.sendOTP (world_at 1000 no_fault) (dialled asha_send))
     = inl sms_sent
  /\ TwoFactorService.success sms_sent = true
  /\ exists resp st' s apiKey more,
       send_otp (world_at 1000 no_fault) asha_send boot = (inl resp, st')
       /\ otpSessions st' !! JStr "sess-1" = Some s
       /\ Session.phoneNumber s = JStr "+919876543210"
       /\ Session.phone s = JStr "9876543210"
       /\ (Session.otpType s = JStr "sms" \/ Session.otpType s = JStr "voice")
       /\ gateway_reply (TwoFactorService.getApiKey (world_at 1000 no_fault)) = inl apiKey
       /\ requests st'
          = requests boot ++ TwoFactorService.sms_url apiKey "919876543210" :: more.
Proof.
  assert (H1 : SendReq.phone asha_send = JStr "9876543210") by reflexivity.
  assert (H2 : String.length "9876543210" = 10%nat) by reflexivity.
  assert (H3 : gateway_reply (TwoFactorService.sendOTP (world_at 1000 no_fault)
                                (dialled asha_send)) = inl sms_sent)
    by (vm_compute; reflexivity).
  assert (H4 : TwoFactorService.success sms_sent = true) by reflexivity.
  do 4 (split; [assumption|]).
  exact (send_otp_stores_plus91_digits (world_at 1000 no_fault) asha_send boot
           "9876543210" sms_sent H1 H2 H3 H4).
Defined.

(** A code for a session that was never opened. *)
Lemma verify_otp_ignores_unknown_session_witness :
  otpSessions boot !! VerifyReq.sessionId right = None
  /\ verify_otp (world_at 2000 no_fault) right boot
     = (inl (refuse 400 (JStr "Session expired or invalid. Please request a new OTP.")),
        boot).
Proof.
  assert (H1 : otpSessions boot !! VerifyReq.sessionId right = None) by reflexivity.
  split; [assumption|].
  destruct (verify_otp_ignores_unknown_session (world_at 2000 no_fault) right boot
              (or_intror (or_intror H1))) as (msg & Hrun & ->).
  exact Hrun.
Defined.


(** The right code while the lead collection rejects the save. *)
Lemma lead_failure_keeps_user_witness :
  truthy (VerifyReq.sessionId right) = true
  /\ truthy (VerifyReq.otp right) = true
  /\ otpSessions opened !! VerifyReq.sessionId right = Some asha
  /\ Date_now (world_at 2000 lead_fails) - Session.createdAt asha <= ten_minutes
  /\ Session.attempts asha < 3
  /\ accepted (world_at 2000 lead_fails) (VerifyReq.sessionId right) (VerifyReq.otp right) = true
  /\ db_throws (world_at 2000 lead_fails) UserFindOne = None
  /\ db_throws (world_at 2000 lead_fails) UserSave = None
  /\ db_throws (world_at 2000 lead_fails) LeadSave = Some (Error "Lead validation failed")
  /\ exists st' user,
       verify_otp (world_at 2000 lead_fails) right opened = (inl verify_failed, st')
       /\ leads st' = []
       /\ otpSessions st' !! JStr "sess-1" = Some (Session.set_verified true asha)
       /\ users st' = [user]
       /\ User.phoneNumber user = JStr "+919876543210".
Proof.
  assert (H1 : truthy (VerifyReq.sessionId right) = true) by reflexivity.
  assert (H2 : truthy (VerifyReq.otp right) = true) by reflexivity.
  assert (H3 : otpSessions opened !! VerifyReq.sessionId right = Some asha)
    by (vm_compute; reflexivity).
  assert (H4 : Date_now (world_at 2000 lead_fails) - Session.createdAt asha <= ten_minutes)
    by (vm_compute; discriminate).
  assert (H5 : Session.attempts asha < 3) by (vm_compute; reflexivity).
  assert (H6 : accepted (world_at 2000 lead_fails) (VerifyReq.sessionId right)
                 (VerifyReq.otp right) = true) by (vm_compute; reflexivity).
  assert (H7 : db_throws (world_at 2000 lead_fails) UserFindOne = None) by reflexivity.
  assert (H8 : db_throws (world_at 2000 lead_fails) UserSave = None) by reflexivity.
  assert (H9 : db_throws (world_at 2000 lead_fails) LeadSave
               = Some (Error "Lead validation failed")) by reflexivity.
  do 9 (split; [assumption|]).
  destruct (lead_failure_keeps_user (world_at 2000 lead_fails) right opened asha _
              H1 H2 H3 H4 H5 H6 H7 H8 H9) as (st' & Hrun & Hleads & Hsess & Husers).
  eexists st', _. split; [exact Hrun|]. split; [exact Hleads|]. split; [exact Hsess|].
  split; [exact Husers | reflexivity].
Defined.

(** The right code while the access token cannot be signed. *)
Lemma token_failure_after_commit_witness :
  truthy (VerifyReq.sessionId right) = true
  /\ truthy (VerifyReq.otp right) = true
  /\ otpSessions opened !! VerifyReq.sessionId right = Some asha
  /\ Date_now (unsigned 2000) - Session.createdAt asha <= ten_minutes
  /\ Session.attempts asha < 3
  /\ accepted (unsigned 2000) (VerifyReq.sessionId right) (VerifyReq.otp right) = true
  /\ (forall op, db_throws (unsigned 2000) op = None)
  /\ (forall u, exists e, generateToken (unsigned 2000) u = inr e)
  /\ exists st' lead,
       verify_otp (unsigned 2000) right opened = (inl verify_failed, st')
       /\ otpSessions st' !! JStr "sess-1" = None
       /\ leads st' = leads opened ++ [lead]
       /\ ((exists u, users st' = users opened ++ [u])
           \/ (exists i u, (i < length (users opened))%nat
                           /\ users st' = <[i := u]> (users opened))).
Proof.
  assert (H1 : truthy (VerifyReq.sessionId right) = true) by reflexivity.
  assert (H2 : truthy (VerifyReq.otp right) = true) by reflexivity.
  assert (H3 : otpSessions opened !! VerifyReq.sessionId right = Some asha)
    by (vm_compute; reflexivity).
  assert (H4 : Date_now (unsigned 2000) - Session.createdAt asha <= ten_minutes)
    by (vm_compute; discriminate).
  assert (H5 : Session.attempts asha < 3) by (vm_compute; reflexivity).
  assert (H6 : accepted (unsigned 2000) (VerifyReq.sessionId right)
                 (VerifyReq.otp right) = true) by (vm_compute; reflexivity).
  assert (H7 : forall op, db_throws (unsigned 2000) op = None)
    by (intros op; reflexivity).
  assert (H8 : forall u, exists e, generateToken (unsigned 2000) u = inr e)
    by (intros u; eexists; reflexivity).
  do 8 (split; [assumption|]).
  exact (token_failure_after_commit (unsigned 2000) right opened asha
           H1 H2 H3 H4 H5 H6 H7 (or_introl H8)).
Defined.

(** The right code, sent as a JSON number instead of a string. *)
Lemma gateway_trouble_costs_an_attempt_witness :
  truthy (VerifyReq.sessionId numeric) = true
  /\ truthy (VerifyReq.otp numeric) = true
  /\ otpSessions opened !! VerifyReq.sessionId numeric = Some asha
  /\ Date_now (world_at 2000 no_fault) - Session.createdAt asha <= ten_minutes
  /\ Session.attempts asha < 3
  /\ is_string (VerifyReq.otp numeric) = false
  /\ exists st',
       verify_otp (world_at 2000 no_fault) numeric opened
       = (inl (refuse 400 (JStr "Invalid OTP. 2 attempts remaining.")), st')
       /\ otpSessions st' !! JStr "sess-1" = Some (Session.set_attempts 1 asha).
Proof.
  assert (H1 : truthy (VerifyReq.sessionId numeric) = true) by reflexivity.
  assert (H2 : truthy (VerifyReq.otp numeric) = true) by reflexivity.
  assert (H3 : otpSessions opened !! VerifyReq.sessionId numeric = Some asha)
    by (vm_compute; reflexivity).
  assert (H4 : Date_now (world_at 2000 no_fault) - Session.createdAt asha <= ten_minutes)
    by (vm_compute; discriminate).
  assert (H5 : Session.attempts asha < 3) by (vm_compute; reflexivity).
  assert (H6 : is_string (VerifyReq.otp numeric) = false) by reflexivity.
  do 6 (split; [assumption|]).
  exact (gateway_trouble_costs_an_attempt (world_at 2000 no_fault) numeric opened asha
           H1 H2 H3 H4 H5 (or_introl H6)).
Defined.



(** After three wrong codes: one more wrong code and a new send. *)
Lemma attempts_always_bounded_witness :
  attempts_bounded (otpSessions three_wrong)
  /\ otpSessions three_wrong !! JStr "sess-1" = Some (Session.set_attempts 3 asha)
  /\ attempts_bounded
       (otpSessions (serve [VerifyOtp (world_at 5000 no_fault) wrong;
                            SendOtp (world_at 6000 no_fault) asha_send;
                            VerifyOtp (world_at 7000 no_fault) wrong] three_wrong)).
Proof.
  assert (H1 : attempts_bounded (otpSessions three_wrong)).
  { change (map_Forall (fun _ s => 0 <= Session.attempts s <= 3) (otpSessions three_wrong)).
    apply (bool_decide_unpack _). vm_compute. exact I. }
  split; [assumption|]. split; [vm_compute; reflexivity|].
  exact (attempts_always_bounded
           [VerifyOtp (world_at 5000 no_fault) wrong;
            SendOtp (world_at 6000 no_fault) asha_send;
            VerifyOtp (world_at 7000 no_fault) wrong] three_wrong H1).
Defined.

(** Asha logs in a second time: still one user under her number. *)
Lemma phone_numbers_stay_unique_witness :
  phones_unique (users logged_in)
  /\ length (users logged_in) = 1%nat
  /\ phones_unique
       (users (serve [SendOtp (world_at 3000 no_fault) asha_send;
                      VerifyOtp (world_at 4000 no_fault) right] logged_in)).
Proof.
  assert (H1 : phones_unique (users logged_in)) 
    by (unfold phones_unique; apply (bool_decide_unpack _); vm_compute; exact I).
  split; [assumption|]. split; [vm_compute; reflexivity|].
  exact (phone_numbers_stay_unique
           [SendOtp (world_at 3000 no_fault) asha_send;
            VerifyOtp (world_at 4000 no_fault) right] logged_in H1).
Defined.

End MoreInstances.
